(** * The flux HTTP client (http/client.go): request primitives and their
      interaction with the route resolver, the credential, the transport
      and the JSON codec.

    The client is orchestration code: every primitive is a fixed sequence of
    calls to collaborators with early returns on failure.  The embedding
    keeps that shape.  Each Go function becomes a computation in a small
    logging monad: the value is what the Go function returns, the log is the
    ordered list of collaborator calls it made.  Collaborators that live
    outside the file (router, token, transport, encoding/json) are interfaces
    (type classes); the statements below hold for every implementation. *)

From Stdlib Require Import String Ascii List ZArith NArith Bool Lia.
Import ListNotations.
Local Open Scope string_scope.
Local Open Scope list_scope.

(** ** Byte strings *)

(** A Go [[]byte] or [string] is a sequence of bytes; the nil slice and the
    empty slice both have length 0 and are both the empty string here. *)
Definition bytes := string.

Definition len (b : bytes) : Z := Z.of_nat (String.length b).

(** ** strings.TrimSpace

    Go trims every leading and trailing Unicode white-space rune of the
    UTF-8 text.  [unicode.IsSpace] holds for the six ASCII spaces, for
    U+0085 and U+00A0, and for the runes with the White_Space property:
    U+1680, U+2000..U+200A, U+2028, U+2029, U+202F, U+205F, U+3000.
    The model works on the bytes and recognises the UTF-8 encoding of each
    of these runes. *)
Module Strings.

Definition asciiSpace (c : N) : bool :=
  match c with
  | 9 | 10 | 11 | 12 | 13 | 32 => true
  | _ => false
  end%N.

(** Two-byte runes: U+0085 = C2 85, U+00A0 = C2 A0. *)
Definition space2 (b1 b2 : N) : bool :=
  ((b1 =? 194) && ((b2 =? 133) || (b2 =? 160)))%N.

(** Three-byte runes: U+1680 = E1 9A 80; U+2000..U+200A = E2 80 80..8A;
    U+2028, U+2029, U+202F = E2 80 A8, A9, AF; U+205F = E2 81 9F;
    U+3000 = E3 80 80. *)
Definition space3 (b1 b2 b3 : N) : bool :=
  (((b1 =? 225) && (b2 =? 154) && (b3 =? 128))
   || ((b1 =? 226) && (b2 =? 128)
       && (((128 <=? b3) && (b3 <=? 138))
           || (b3 =? 168) || (b3 =? 169) || (b3 =? 175)))
   || ((b1 =? 226) && (b2 =? 129) && (b3 =? 159))
   || ((b1 =? 227) && (b2 =? 128) && (b3 =? 128)))%N.

(** TrimLeftFunc(s, unicode.IsSpace) on the byte sequence. *)
Fixpoint trimLeft (l : list N) : list N :=
  match l with
  | [] => []
  | b1 :: t1 =>
      if asciiSpace b1 then trimLeft t1
      else
        match t1 with
        | [] => l
        | b2 :: t2 =>
            if space2 b1 b2 then trimLeft t2
            else
              match t2 with
              | [] => l
              | b3 :: t3 => if space3 b1 b2 b3 then trimLeft t3 else l
              end
        end
  end.

(** TrimRightFunc(s, unicode.IsSpace), on the reversed byte sequence: the
    last rune is decoded backwards, so the encodings are matched last byte
    first. *)
Fixpoint trimRightRev (l : list N) : list N :=
  match l with
  | [] => []
  | b1 :: t1 =>
      if asciiSpace b1 then trimRightRev t1
      else
        match t1 with
        | [] => l
        | b2 :: t2 =>
            if space2 b2 b1 then trimRightRev t2
            else
              match t2 with
              | [] => l
              | b3 :: t3 => if space3 b3 b2 b1 then trimRightRev t3 else l
              end
        end
  end.

Definition to_bytes (s : string) : list N :=
  map N_of_ascii (list_ascii_of_string s).

Definition of_bytes (l : list N) : string :=
  string_of_list_ascii (map ascii_of_N l).

Definition TrimSpace (s : string) : string :=
  of_bytes (rev (trimRightRev (rev (trimLeft (to_bytes s))))).

End Strings.

(** ** Errors

    Go's [error] interface.  [withMessage] is what [errors.Wrap] of
    github.com/pkg/errors builds: the cause and one line of context.
    [APIError] is [*httperror.APIError] with the three fields the client
    fills in.  A nil [error] is [None] at type [option error]. *)
Inductive error : Type :=
| errorString (msg : string)
| withMessage (cause : error) (msg : string)
| APIError (StatusCode : Z) (Status : string) (Body : string).

(** errors.Wrap(err, message) for a non-nil [err]. *)
Definition errors_Wrap (err : error) (message : string) : error :=
  withMessage err message.

(** errors.Cause: the innermost error of a chain of wrappers. *)
Fixpoint errors_Cause (err : error) : error :=
  match err with
  | withMessage cause _ => errors_Cause cause
  | _ => err
  end.

(** ** net/http values *)

(** An [io.ReadCloser] over a response body: reading it yields
    [stream_data] and then either end of stream ([stream_err = None]) or
    the read failure [stream_err]. *)
Record ReadCloser : Type := mkBody {
  stream_data : bytes;
  stream_err : option error
}.

(** ioutil.ReadAll: everything read until the end of the stream or the first
    failure, and that failure (nil at end of stream). *)
Definition ReadAll_result (b : ReadCloser) : bytes * option error :=
  (stream_data b, stream_err b).

(** [*http.Request].  [Payload] is the [io.Reader] given to
    [http.NewRequest]: [None] for a nil reader, [Some b] for
    [bytes.NewReader(b)].  [Header] is what the credential writes to. *)
Record Request : Type := mkRequest {
  Method : string;
  URL : string;
  Payload : option bytes;
  Header : list (string * string)
}.

(** [*http.Response]. *)
Record Response : Type := mkResponse {
  StatusCode : Z;
  Status : string;
  Body : ReadCloser
}.

Definition http_StatusOK : Z := 200.

(** ** Collaborators *)

(** The transport, the [Do] method of [http.Client].  When the error is nil the response
    is non-nil (net/http's contract), hence a sum. *)
Class Transport (HTTPClient : Type) : Type :=
  Do : HTTPClient -> Request -> Response + error.

(** The failure of [http.NewRequest(method, url, body)], if any (a method
    that is not a token, a URL that does not parse). *)
Class RequestBuilder : Type :=
  NewRequest_err : string -> string -> option error.

(** The credential, [flux.Token]: [Set] mutates the request in place, so it
    is a function from the request before to the request after. *)
Class Credential (Token : Type) : Type :=
  Token_Set : Token -> Request -> Request.

(** The route resolver, [makeURL(endpoint, router, routeName, urlParams...)].
    The URL it returns is kept as its [String()]. *)
Class RouteResolver (Router : Type) : Type :=
  makeURL : string -> Router -> string -> list string -> string + error.

(** encoding/json.  [Value] is a Go value passed as a
    request body, [Dest] the contents of a caller's variable a response is
    decoded into.  Decoding returns the variable's new contents together with
    the error, as the library may have written to it before failing.
    The [_nil] forms are the same calls when the [interface{}] given is nil:
    [Unmarshal] then fills the local empty interface (any JSON text is
    accepted), [Decode] is given no variable at all. *)
Class JSON (Value Dest : Type) : Type := {
  json_Marshal : Value -> bytes + error;
  json_Unmarshal : bytes -> Dest -> Dest * option error;
  json_Unmarshal_nil : bytes -> option error;
  json_Decode : ReadCloser -> Dest -> Dest * option error;
  json_Decode_nil : ReadCloser -> option error
}.

(** ** The logging monad *)

(** One entry per call to a collaborator or to a library function that
    touches the request or the response. *)
Inductive Event {Value : Type} : Type :=
| EvMakeURL (endpoint route : string) (queryParams : list string)
| EvMarshal (body : Value)
| EvNewRequest (method url : string) (body : option bytes)
| EvTokenSet (req : Request)
| EvDo (req : Request)
| EvReadAll (b : ReadCloser)
| EvUnmarshal (data : bytes)
| EvDecode (b : ReadCloser)
| EvClose (b : ReadCloser).
Arguments Event : clear implicits.

Definition M (Value A : Type) : Type := A * list (Event Value).

Definition ret {Value A : Type} (a : A) : M Value A := (a, []).

Definition bind {Value A B : Type} (m : M Value A) (k : A -> M Value B)
  : M Value B :=
  (fst (k (fst m)), snd m ++ snd (k (fst m))).

(** Perform a call: log it and give back its result. *)
Definition call {Value A : Type} (e : Event Value) (a : A) : M Value A :=
  (a, [e]).

(** [defer f()]: [cleanup] runs when the enclosing function returns, on every
    path through [rest], the statements after the [defer]. *)
Definition defer {Value A : Type} (cleanup : M Value unit) (rest : M Value A)
  : M Value A :=
  bind rest (fun a => bind cleanup (fun _ => ret a)).

Definition value {Value A : Type} (m : M Value A) : A := fst m.
Definition trace {Value A : Type} (m : M Value A) : list (Event Value) := snd m.

Declare Scope go_scope.
Delimit Scope go_scope with go.
Notation "x <- m ;; k" := (bind m (fun x => k))
  (at level 100, m at next level, right associativity) : go_scope.
Notation "' p <- m ;; k" := (bind m (fun x => let p := x in k))
  (at level 100, p pattern, m at next level, right associativity) : go_scope.

(** How a call of a primitive ends: it returns an [error] (nil or not), or
    the goroutine panics on a nil dereference. *)
Inductive outcome : Type :=
| Returned (err : option error)
| Panicked.

(** [jobs.ReleaseJobParams]: the four fields [PostRelease] reads, each of a
    string type. *)
Record ReleaseJobParams : Type := mkReleaseJobParams {
  ImageSpec : string;
  Kind : string;
  ServiceSpecs : list string;
  Excludes : list string
}.

(** ** The client *)

Record client {HTTPClient Token Router : Type} : Type := mkClient {
  httpClient : HTTPClient;   (* field [client] *)
  token : Token;
  router : Router;
  endpoint : string
}.
Arguments client : clear implicits.

Section Client.
Context {HTTPClient Token Router Value Dest : Type}.
Context {transport : Transport HTTPClient} {credential : Credential Token}
        {resolver : RouteResolver Router} {json : JSON Value Dest}
        {builder : RequestBuilder}.

Local Open Scope go_scope.

Local Abbreviation client := (client HTTPClient Token Router).
Local Abbreviation Go := (M Value).

(** A destination [dest interface{}]: nil, or a pointer to a variable of
    the caller, given by the variable's contents. *)
Definition destination : Type := option Dest.

(** http.NewRequest(method, url, body). *)
Definition http_NewRequest (method url : string) (body : option bytes)
  : Go (Request + error) :=
  call (EvNewRequest method url body)
    match NewRequest_err method url with
    | Some err => inr err
    | None =>
        inl {| Method := method; URL := url; Payload := body; Header := [] |}
    end.

(** ioutil.ReadAll(r). *)
Definition ioutil_ReadAll (r : ReadCloser) : Go (bytes * option error) :=
  call (EvReadAll r) (ReadAll_result r).

(** json.Unmarshal(data, &dest). *)
Definition Unmarshal (data : bytes) (dest : destination)
  : Go (destination * option error) :=
  call (EvUnmarshal data)
    match dest with
    | None => (None, json_Unmarshal_nil data)
    | Some d => let (d', err) := json_Unmarshal data d in (Some d', err)
    end.

(** json.NewDecoder(r).Decode(dest). *)
Definition Decode (r : ReadCloser) (dest : destination)
  : Go (destination * option error) :=
  call (EvDecode r)
    match dest with
    | None => (None, json_Decode_nil r)
    | Some d => let (d', err) := json_Decode r d in (Some d', err)
    end.

Definition executeRequest (c : client) (req : Request)
  : Go (option Response * option error) :=
  r <- call (EvDo req) (Do (httpClient c) req) ;;
  match r with
  | inr err => ret (None, Some (errors_Wrap err "executing HTTP request"))
  | inl resp =>
      if (StatusCode resp =? http_StatusOK)%Z then
        ret (Some resp, None)
      else
        ' (buf, _) <- ioutil_ReadAll (Body resp) ;;
        let body := Strings.TrimSpace buf in
        ret (None,
             Some (APIError (StatusCode resp) (Status resp) body))
  end.

(** get executes a get request against the flux server. it unmarshals the
    response into dest. *)
Definition get (c : client) (dest : destination) (route : string)
           (queryParams : list string) : Go (destination * outcome) :=
  ru <- call (EvMakeURL (endpoint c) route queryParams)
             (makeURL (endpoint c) (router c) route queryParams) ;;
  match ru with
  | inr err => ret (dest, Returned (Some (errors_Wrap err "constructing URL")))
  | inl u =>
      rq <- http_NewRequest "GET" u None ;;
      match rq with
      | inr err =>
          ret (dest, Returned
                 (Some (errors_Wrap err ("constructing request " ++ u))))
      | inl req =>
          req <- call (EvTokenSet req) (Token_Set (token c) req) ;;
          ' (resp, err) <- executeRequest c req ;;
          match err with
          | Some err =>
              ret (dest, Returned
                     (Some (errors_Wrap err "executing HTTP request")))
          | None =>
              match resp with
              | None => ret (dest, Panicked)
              | Some resp =>
                  defer (call (EvClose (Body resp)) tt)
                    (' (dest', err) <- Decode (Body resp) dest ;;
                     match err with
                     | Some err =>
                         ret (dest', Returned
                                (Some (errors_Wrap err
                                         "decoding response from server")))
                     | None => ret (dest', Returned None)
                     end)
              end
          end
      end
  end.

(** postWithResp is the full enchilada, it handles body and query-param
    encoding, as well as decoding the response into the provided
    destination.  Note, the response will only be decoded into the dest if
    the len is > 0. *)
Definition postWithResp (c : client) (dest : destination) (route : string)
           (body : option Value) (queryParams : list string)
  : Go (destination * outcome) :=
  ru <- call (EvMakeURL (endpoint c) route queryParams)
             (makeURL (endpoint c) (router c) route queryParams) ;;
  match ru with
  | inr err => ret (dest, Returned (Some (errors_Wrap err "constructing URL")))
  | inl u =>
      rb <- match body with
            | Some b => call (EvMarshal b) (json_Marshal b)
            | None => ret (inl "")
            end ;;
      match rb with
      | inr err =>
          ret (dest, Returned (Some (errors_Wrap err "encoding request body")))
      | inl bodyBytes =>
          rq <- http_NewRequest "POST" u (Some bodyBytes) ;;
          match rq with
          | inr err =>
              ret (dest, Returned
                     (Some (errors_Wrap err ("constructing request " ++ u))))
          | inl req =>
              req <- call (EvTokenSet req) (Token_Set (token c) req) ;;
              ' (resp, err) <- executeRequest c req ;;
              match err with
              | Some err =>
                  ret (dest, Returned
                         (Some (errors_Wrap err "executing HTTP request")))
              | None =>
                  match resp with
                  | None => ret (dest, Panicked)
                  | Some resp =>
                      defer (call (EvClose (Body resp)) tt)
                        (' (respBytes, err) <- ioutil_ReadAll (Body resp) ;;
                         match err with
                         | Some err =>
                             ret (dest, Returned
                                    (Some (errors_Wrap err
                                             "decoding response from server")))
                         | None =>
                             if (len respBytes <=? 0)%Z then
                               ret (dest, Returned None)
                             else
                               ' (dest', err) <- Unmarshal respBytes dest ;;
                               match err with
                               | Some err =>
                                   ret (dest', Returned
                                          (Some (errors_Wrap err
                                             "decoding response from server")))
                               | None => ret (dest', Returned None)
                               end
                         end)
                  end
              end
          end
      end
  end.

(** postWithBody is a more complex post request, which includes a
    json-ified body.  If body is not nil, it is encoded to json before
    sending. *)
Definition postWithBody (c : client) (route : string) (body : option Value)
           (queryParams : list string) : Go outcome :=
  ' (_, err) <- postWithResp c None route body queryParams ;;
  ret err.

(** post is a simple query-param only post request. *)
Definition post (c : client) (route : string) (queryParams : list string)
  : Go outcome :=
  postWithBody c route None queryParams.

(** *** Public operations that post *)

(** [postReleaseResponse], the shape [PostRelease] decodes into: its zero
    value and its [ReleaseID] field. *)
Variable postReleaseResponse : Dest.
Variable ReleaseID : Dest -> string.

(** [resp'] is the caller's [resp] after the call, read through the pointer
    that was passed. *)
Definition PostRelease (c : client) (s : ReleaseJobParams)
  : Go (string * outcome) :=
  let args := ["image"; ImageSpec s; "kind"; Kind s] in
  let args :=
    fold_left (fun args spec => args ++ ["service"; spec]) (ServiceSpecs s) args in
  let args :=
    fold_left (fun args ex => args ++ ["exclude"; ex]) (Excludes s) args in
  let resp := postReleaseResponse in
  ' (resp', err) <- postWithResp c (Some resp) "PostRelease" None args ;;
  ret (ReleaseID (match resp' with Some r => r | None => resp end), err).

Definition Automate (c : client) (id : string) : Go outcome :=
  post c "Automate" ["service"; id].

Definition Deautomate (c : client) (id : string) : Go outcome :=
  post c "Deautomate" ["service"; id].

Definition Lock (c : client) (id : string) : Go outcome :=
  post c "Lock" ["service"; id].

Definition Unlock (c : client) (id : string) : Go outcome :=
  post c "Unlock" ["service"; id].

Definition SetConfig (c : client) (config : Value) : Go outcome :=
  postWithBody c "SetConfig" (Some config) [].

Definition GenerateDeployKey (c : client) : Go outcome :=
  post c "GenerateDeployKeys" [].

End Client.

(** *** The constructor and the public operations that get

    Each query declares a result variable, passes a pointer to it to [get]
    and returns the variable with the error.  The variable starts as the zero
    value of its type; the zero values are given, one per result type.  The
    instance argument, which every operation ignores, is left out as it is
    for the operations above. *)
Section Queries.
Context {HTTPClient Token Router Value Dest : Type}.
Context {transport : Transport HTTPClient} {credential : Credential Token}
        {resolver : RouteResolver Router} {json : JSON Value Dest}
        {builder : RequestBuilder}.

Local Open Scope go_scope.

Local Abbreviation client := (client HTTPClient Token Router).
Local Abbreviation Go := (M Value).

Definition NewClient (c : HTTPClient) (router : Router) (endpoint : string)
  (t : Token) : client :=
  {| httpClient := c; token := t; router := router; endpoint := endpoint |}.

Variable nil_ServiceStatus : Dest.     (* var res []flux.ServiceStatus *)
Variable nil_ImageStatus : Dest.       (* var res []flux.ImageStatus *)
Variable zero_Job : Dest.              (* var res jobs.Job *)
Variable nil_HistoryEntry : Dest.      (* var res []flux.HistoryEntry *)
Variable zero_InstanceConfig : Dest.   (* var res flux.InstanceConfig *)
Variable zero_Status : Dest.           (* var res flux.Status *)

Definition ListServices (c : client) (namespace : string)
  : Go (Dest * outcome) :=
  let res := nil_ServiceStatus in
  ' (res', err) <- get c (Some res) "ListServices" ["namespace"; namespace] ;;
  ret (match res' with Some r => r | None => res end, err).

Definition ListImages (c : client) (s : string) : Go (Dest * outcome) :=
  let res := nil_ImageStatus in
  ' (res', err) <- get c (Some res) "ListImages" ["service"; s] ;;
  ret (match res' with Some r => r | None => res end, err).

Definition GetRelease (c : client) (id : string) : Go (Dest * outcome) :=
  let res := zero_Job in
  ' (res', err) <- get c (Some res) "GetRelease" ["id"; id] ;;
  ret (match res' with Some r => r | None => res end, err).

Definition History (c : client) (s : string) : Go (Dest * outcome) :=
  let res := nil_HistoryEntry in
  ' (res', err) <- get c (Some res) "History" ["service"; s] ;;
  ret (match res' with Some r => r | None => res end, err).

Definition GetConfig (c : client) : Go (Dest * outcome) :=
  let res := zero_InstanceConfig in
  ' (res', err) <- get c (Some res) "GetConfig" [] ;;
  ret (match res' with Some r => r | None => res end, err).

(** [Status]; the name is taken by the field of [Response]. *)
Definition Status_ (c : client) : Go (Dest * outcome) :=
  let res := zero_Status in
  ' (res', err) <- get c (Some res) "Status" [] ;;
  ret (match res' with Some r => r | None => res end, err).

End Queries.

(** ** Vocabulary of the statements *)

(** The query parameters as the specification speaks of them: an ordered list
    of (key, value) pairs, and its flat form key1, value1, key2, value2, ... *)
Definition flat (pairs : list (string * string)) : list string :=
  flat_map (fun kv => [fst kv; snd kv]) pairs.

(** The values a flat parameter list gives to [key], in order. *)
Fixpoint values_of (key : string) (args : list string) : list string :=
  match args with
  | k :: v :: rest =>
      if String.eqb k key then v :: values_of key rest else values_of key rest
  | _ => []
  end.

(** The pairs of a release job, in the specification's words: image, kind,
    one "service" pair per service spec, one "exclude" pair per exclude. *)
Definition release_pairs (s : ReleaseJobParams) : list (string * string) :=
  ("image", ImageSpec s) :: ("kind", Kind s)
  :: map (pair "service") (ServiceSpecs s)
  ++ map (pair "exclude") (Excludes s).

Section Events.
Context {Value : Type}.

Definition is_TokenSet (e : Event Value) : bool :=
  match e with EvTokenSet _ => true | _ => false end.

Definition is_Do (e : Event Value) : bool :=
  match e with EvDo _ => true | _ => false end.

Definition is_Close (e : Event Value) : bool :=
  match e with EvClose _ => true | _ => false end.

Definition is_Marshal (e : Event Value) : bool :=
  match e with EvMarshal _ => true | _ => false end.

Definition is_NewRequest (e : Event Value) : bool :=
  match e with EvNewRequest _ _ _ => true | _ => false end.

(** Decoding of a response body as JSON, by either entry point. *)
Definition is_decoding (e : Event Value) : bool :=
  match e with EvUnmarshal _ | EvDecode _ => true | _ => false end.

Definition count (p : Event Value -> bool) (t : list (Event Value)) : nat :=
  List.length (filter p t).

(** No event of [t] satisfies [p]. *)
Definition never (p : Event Value -> bool) (t : list (Event Value)) : Prop :=
  existsb p t = false.

(** The credential is attached once, to the request the transport is then
    given, and the transport is called once: the log is
    [before ++ Set(req) :: Do(req') :: after] where [req'] is [req] as the
    credential left it, and neither call occurs in [before] or [after]. *)
Definition attached_once_then_sent {Token : Type} {credential : Credential Token}
  (t : Token) (log : list (Event Value)) : Prop :=
  exists before req after,
    log = before ++ EvTokenSet req :: EvDo (Token_Set t req) :: after
    /\ never is_TokenSet before /\ never is_Do before
    /\ never is_TokenSet after /\ never is_Do after.

End Events.

(** The two lesser POST primitives in the specification's words: the full
    primitive with the destination discarded, and for the bare POST with no
    body either.  [discard] keeps the error and the log. *)
Definition discard {Value Dest : Type} (m : M Value (option Dest * outcome))
  : M Value outcome :=
  (snd (value m), trace m).

Definition spec_post_no_response
  {HTTPClient Token Router Value Dest : Type}
  {transport : Transport HTTPClient} {credential : Credential Token}
  {resolver : RouteResolver Router} {json : JSON Value Dest}
  {builder : RequestBuilder}
  (c : client HTTPClient Token Router) (route : string) (body : option Value)
  (queryParams : list string) : M Value outcome :=
  discard (postWithResp c None route body queryParams).

Definition spec_bare_post
  {HTTPClient Token Router Value Dest : Type}
  {transport : Transport HTTPClient} {credential : Credential Token}
  {resolver : RouteResolver Router} {json : JSON Value Dest}
  {builder : RequestBuilder}
  (c : client HTTPClient Token Router) (route : string)
  (queryParams : list string) : M Value outcome :=
  discard (postWithResp c None route None queryParams).

(** A response body with nothing in it: no bytes, then end of stream. *)
Definition empty_body (b : ReadCloser) : Prop :=
  stream_data b = "" /\ stream_err b = None.

(** What encoding/json does with an empty stream: [Decode] reads to the end
    of the input without finding a value and returns io.EOF, whatever it is
    asked to decode into. *)
Definition Decode_rejects_empty_input {Value Dest : Type} (json : JSON Value Dest)
  : Prop :=
  forall r, empty_body r ->
    json_Decode_nil r <> None /\ forall d, snd (json_Decode r d) <> None.

(** The result of a POST once the response body [data] is not empty: the
    error of [Unmarshal], if any, wrapped as a decoding error. *)
Definition decoded (err : option error) : outcome :=
  match err with
  | Some err => Returned (Some (errors_Wrap err "decoding response from server"))
  | None => Returned None
  end.

(** The phase a call belongs to, in the order of the source text: resolve
    the URL, marshal the body, build the request, attach the credential,
    send, read the body, decode it, close it. *)
Definition phase {Value : Type} (e : Event Value) : nat :=
  match e with
  | EvMakeURL _ _ _ => 0
  | EvMarshal _ => 1
  | EvNewRequest _ _ _ => 2
  | EvTokenSet _ => 3
  | EvDo _ => 4
  | EvReadAll _ => 5
  | EvUnmarshal _ => 6
  | EvDecode _ => 6
  | EvClose _ => 7
  end.

Fixpoint increasing (l : list nat) : bool :=
  match l with
  | a :: (b :: _) as rest => (a <? b)%nat && increasing rest
  | _ => true
  end.

(** The context lines the primitives attach to an error, one per phase. *)
Definition phase_context (msg : string) : Prop :=
  msg = "constructing URL"
  \/ msg = "encoding request body"
  \/ (exists u, msg = ("constructing request " ++ u)%string)
  \/ msg = "executing HTTP request"
  \/ msg = "decoding response from server".

Definition is_ReadAll {Value : Type} (e : Event Value) : bool :=
  match e with EvReadAll _ => true | _ => false end.

Definition is_MakeURL {Value : Type} (e : Event Value) : bool :=
  match e with EvMakeURL _ _ _ => true | _ => false end.

(** The bytes a POST sends: the body marshalled, or nothing. *)
Definition payload_of {Value Dest : Type} {json : JSON Value Dest}
  (body : option Value) : bytes + error :=
  match body with
  | Some b => json_Marshal b
  | None => inl ""
  end.

(** A sequence of white-space runes, in UTF-8. *)
Inductive white_space : list N -> Prop :=
| white_space_nil : white_space []
| white_space_ascii b l :
    Strings.asciiSpace b = true -> white_space l -> white_space (b :: l)
| white_space_2 b1 b2 l :
    Strings.space2 b1 b2 = true -> white_space l ->
    white_space (b1 :: b2 :: l)
| white_space_3 b1 b2 b3 l :
    Strings.space3 b1 b2 b3 = true -> white_space l ->
    white_space (b1 :: b2 :: b3 :: l).

(** The bytes start with a white-space rune. *)
Definition starts_with_space (l : list N) : bool :=
  match l with
  | [] => false
  | b1 :: t1 =>
      Strings.asciiSpace b1
      || match t1 with
         | [] => false
         | b2 :: t2 =>
             Strings.space2 b1 b2
             || match t2 with
                | [] => false
                | b3 :: _ => Strings.space3 b1 b2 b3
                end
         end
  end.

(** The bytes, given last byte first, end with a white-space rune. *)
Definition ends_with_space_rev (l : list N) : bool :=
  match l with
  | [] => false
  | b1 :: t1 =>
      Strings.asciiSpace b1
      || match t1 with
         | [] => false
         | b2 :: t2 =>
             Strings.space2 b2 b1
             || match t2 with
                | [] => false
                | b3 :: _ => Strings.space3 b3 b2 b1
                end
         end
  end.

Definition ends_with_space (l : list N) : bool := ends_with_space_rev (rev l).

(** What the public operations promise, stated once for all of them. *)
Section Contracts.
Context {HTTPClient Token Router Value Dest : Type}.
Context {transport : Transport HTTPClient} {credential : Credential Token}
        {resolver : RouteResolver Router} {json : JSON Value Dest}
        {builder : RequestBuilder}.

(** An operation that posts without body and without result, on [route]
    with [params]: nothing is marshalled; what it sends is the POST of the
    resolved URL over zero bytes, credential applied; a status other than 200
    comes back as an error whose cause is the [APIError]; a 200 with an
    empty body is success. *)
Definition action_contract (c : client HTTPClient Token Router)
  (route : string) (params : list string) (run : M Value outcome) : Prop :=
  never is_Marshal (trace run)
  /\ hd_error (trace run) = Some (EvMakeURL (endpoint c) route params)
  /\ (forall req,
         In (EvDo req) (trace run) ->
         exists u,
           makeURL (endpoint c) (router c) route params = inl u
           /\ req = Token_Set (token c)
                      {| Method := "POST"; URL := u; Payload := Some "";
                         Header := [] |})
  /\ (forall req resp,
         In (EvDo req) (trace run) ->
         Do (httpClient c) req = inl resp ->
         (StatusCode resp <> http_StatusOK ->
          exists err,
            value run = Returned (Some err)
            /\ errors_Cause err
               = APIError (StatusCode resp) (Status resp)
                   (Strings.TrimSpace (stream_data (Body resp))))
         /\ (StatusCode resp = http_StatusOK ->
             empty_body (Body resp) -> value run = Returned None)).

(** An operation that gets into a result variable starting as [zero], on
    [route] with [params]: it makes the calls of [get] and returns its
    error; without a call to the decoder the result is the zero value; after
    a 200 the result is what [Decode] left in the variable, with the error of
    [Decode], if any, wrapped as a decoding error. *)
Definition query_contract (c : client HTTPClient Token Router) (zero : Dest)
  (route : string) (params : list string) (run : M Value (Dest * outcome))
  : Prop :=
  trace run = trace (get c (Some zero) route params)
  /\ snd (value run) = snd (value (get c (Some zero) route params))
  /\ (never is_decoding (trace run) -> fst (value run) = zero)
  /\ (forall req resp,
         In (EvDo req) (trace run) ->
         Do (httpClient c) req = inl resp ->
         StatusCode resp = http_StatusOK ->
         value run
         = (fst (json_Decode (Body resp) zero),
            decoded (snd (json_Decode (Body resp) zero)))).

End Contracts.

(** ** Test doubles

    A concrete implementation of every collaborator, small enough to run:
    a canned server as transport, the flux token, a route table, and a JSON
    codec over raw documents. *)
Module Double.

(** The transport answers from a function of the request. *)
Definition Server : Type := Request -> Response + error.

#[global] Instance Server_Transport : Transport Server :=
  fun server req => server req.

#[global] Instance any_request : RequestBuilder :=
  fun _ _ => None.

(** The token sets an Authorization header unless it is empty. *)
#[global] Instance string_Credential : Credential string :=
  fun t req =>
    if String.eqb t "" then req
    else {| Method := Method req; URL := URL req; Payload := Payload req;
            Header := ("Authorization", ("Scope-Probe token=" ++ t)%string)
                      :: Header req |}.

(** A route table: route name to path. *)
Definition Routes : Type := list (string * string).

Fixpoint lookup (name : string) (routes : Routes) : option string :=
  match routes with
  | [] => None
  | (n, path) :: rest => if String.eqb n name then Some path else lookup name rest
  end.

Fixpoint query (params : list string) : option string :=
  match params with
  | [] => Some ""
  | k :: v :: rest =>
      match query rest with
      | Some q =>
          Some (k ++ "=" ++ v ++ (if String.eqb q "" then "" else "&" ++ q))%string
      | None => None
      end
  | _ => None
  end.

#[global] Instance Routes_RouteResolver : RouteResolver Routes :=
  fun endpoint routes name params =>
    match lookup name routes with
    | None => inr (errorString ("unknown route " ++ name)%string)
    | Some path =>
        match query params with
        | None => inr (errorString "urlParams must be even")
        | Some "" => inl (endpoint ++ path)%string
        | Some q => inl (endpoint ++ path ++ "?" ++ q)%string
        end
    end.

(** Request bodies: a text, which marshals to itself in quotes, or a value
    JSON has no encoding for. *)
Inductive Value : Type :=
| Text (s : string)
| Channel.

Definition quote : string := String (ascii_of_nat 34) "".

(** A document passes for JSON when it starts like a JSON value. *)
Definition looks_like_JSON (data : bytes) : bool :=
  match data with
  | String c _ =>
      existsb (Ascii.eqb c)
        (list_ascii_of_string ("{[0123456789-tfn" ++ quote)%string)
  | EmptyString => false
  end.

Definition io_EOF : error := errorString "EOF".
Definition SyntaxError : error := errorString "invalid character".

(** Destinations hold the raw document last decoded into them. *)
Definition decode_stream (r : ReadCloser) : option error :=
  match stream_data r with
  | EmptyString =>
      Some (match stream_err r with Some e => e | None => io_EOF end)
  | data => if looks_like_JSON data then None else Some SyntaxError
  end.

#[global] Instance raw_JSON : JSON Value string := {|
  json_Marshal v :=
    match v with
    | Text s => inl (quote ++ s ++ quote)%string
    | Channel => inr (errorString "json: unsupported type: chan int")
    end;
  json_Unmarshal data d :=
    if looks_like_JSON data then (data, None) else (d, Some SyntaxError);
  json_Unmarshal_nil data :=
    if looks_like_JSON data then None else Some SyntaxError;
  json_Decode r d :=
    match decode_stream r with
    | None => (stream_data r, None)
    | Some e => (d, Some e)
    end;
  json_Decode_nil r :=
    match decode_stream r with
    | None => Some (errorString "json: Unmarshal(nil)")
    | Some e => Some e
    end
|}.

Definition routes : Routes :=
  [("ListServices", "/v3/services"); ("PostRelease", "/v4/release");
   ("Automate", "/v3/automate"); ("SetConfig", "/v4/config")].

(** A server that answers every request with the same status and body. *)
Definition canned (code : Z) (status : string) (body : bytes) : Server :=
  fun _ => inl {| StatusCode := code; Status := status;
                  Body := {| stream_data := body; stream_err := None |} |}.

Definition unreachable : Server :=
  fun _ => inr (errorString "connection refused").

Definition client_of (server : Server) : client Server string Routes :=
  {| httpClient := server; token := "secret"; router := routes;
     endpoint := "http://flux" |}.

Definition ok_empty := client_of (canned 200 "200 OK" "").
Definition ok_list := client_of (canned 200 "200 OK" "[{}]").
Definition ok_garbage := client_of (canned 200 "200 OK" "<html>").
Definition boom := client_of (canned 500 "500 Internal Server Error" " boom ").

(** The requests the doubles see, credential attached. *)
Definition get_services : Request :=
  {| Method := "GET"; URL := "http://flux/v3/services?namespace=default";
     Payload := None;
     Header := [("Authorization", "Scope-Probe token=secret")] |}.

Definition post_automate : Request :=
  {| Method := "POST"; URL := "http://flux/v3/automate?service=default";
     Payload := Some "";
     Header := [("Authorization", "Scope-Probe token=secret")] |}.

Definition response (code : Z) (status : string) (body : bytes) : Response :=
  {| StatusCode := code; Status := status;
     Body := {| stream_data := body; stream_err := None |} |}.

Definition namespace : list string := ["namespace"; "default"].
Definition service : list string := ["service"; "default"].

Definition down := client_of unreachable.

(** A server whose 200 response breaks off while the body is read. *)
Definition truncated : Server :=
  fun _ => inl {| StatusCode := 200; Status := "200 OK";
                  Body := {| stream_data := "[{";
                             stream_err := Some (errorString "unexpected EOF") |} |}.

Definition cut_short := client_of truncated.

Definition ok_release := client_of (canned 200 "200 OK" "{}").

Definition post_release : Request :=
  {| Method := "POST";
     URL := "http://flux/v4/release?image=<all latest>&kind=execute&service=a&service=b&service=a&exclude=x&exclude=x";
     Payload := Some "";
     Header := [("Authorization", "Scope-Probe token=secret")] |}.

(** A request builder that refuses every URL. *)
Definition no_request : RequestBuilder :=
  fun _ _ => Some (errorString "invalid URL escape").

Definition job : ReleaseJobParams :=
  {| ImageSpec := "<all latest>"; Kind := "execute";
     ServiceSpecs := ["a"; "b"; "a"]; Excludes := ["x"; "x"] |}.

End Double.

(** ** Proof machinery *)

(** Unfold a primitive down to its calls. *)
Ltac run :=
  unfold PostRelease, SetConfig, GenerateDeployKey, Automate, Deautomate,
    Lock, Unlock, post, postWithBody, postWithResp, get, executeRequest,
    http_NewRequest, ioutil_ReadAll, Unmarshal, Decode, ReadAll_result,
    defer, bind, call, ret, value, trace in *;
  simpl in *.

(** Follow the control flow: one case per branch taken. *)
Ltac branch :=
  repeat match goal with
    | H : ?x = _ |- context [match ?x with _ => _ end] => rewrite H; simpl in *
    | H : ?x = _, H' : context [match ?x with _ => _ end] |- _ =>
        rewrite H in H'; simpl in *
    | |- context [match ?x with _ => _ end] => destruct x eqn:?; simpl in *
    | H : context [match ?x with _ => _ end] |- _ => destruct x eqn:?; simpl in *
    end.

(** Which request an [EvDo] of a concrete log carries. *)
Ltac sent :=
  repeat match goal with
    | H : _ \/ _ |- _ => destruct H
    | H : False |- _ => contradiction
    | H : @eq (Event _) _ _ |- _ => first [discriminate H | injection H as H; subst]
    end.

(** Close a branch the hypotheses rule out, or one that holds as computed. *)
Ltac settle :=
  repeat match goal with
    | H : Do ?h ?r = _, H' : Do ?h ?r = _ |- _ => rewrite H in H'
    | H : inl _ = inl _ |- _ => injection H as H; subst
    | H : inr _ = inr _ |- _ => injection H as H; subst
    | H : Some _ = Some _ |- _ => injection H as H; subst
    | H : (_, _) = (_, _) |- _ => injection H as ? ?; subst
    end;
  unfold http_StatusOK in *;
  try congruence; try reflexivity.

Section Facts.
Context {HTTPClient Token Router Value Dest : Type}.
Context {transport : Transport HTTPClient} {credential : Credential Token}
        {resolver : RouteResolver Router} {json : JSON Value Dest}
        {builder : RequestBuilder}.

Local Abbreviation client := (client HTTPClient Token Router).

Implicit Types (c : client) (dest : destination (Dest := Dest))
  (route : string) (queryParams : list string) (body : option Value)
  (req : Request) (resp : Response).

Lemma len_empty (s : bytes) : (len s <=? 0)%Z = true -> s = "".
Proof.
  unfold len. destruct s; [reflexivity|]. simpl String.length.
  intros H%Z.leb_le. lia.
Qed.

Lemma len_nonempty (s : bytes) : (len s <=? 0)%Z = false -> s <> "".
Proof. intros H ->. discriminate H. Qed.

Lemma Z_eqb_200 (n : Z) : n <> http_StatusOK -> (n =? http_StatusOK)%Z = false.
Proof. intro H. now apply Z.eqb_neq. Qed.

Lemma Z_eqb_is_200 (n : Z) : n = http_StatusOK -> (n =? http_StatusOK)%Z = true.
Proof. intro H. now apply Z.eqb_eq. Qed.

(** C1: status classification. A response with status 200 is returned as it
    is, for the caller to decode. Any other status makes [executeRequest]
    fail with an [APIError] carrying the response's status code and the
    body read from the response, white space trimmed at both ends; and in a
    GET or POST that received such a response the destination is returned
    as it was and the log holds no decoding of the body. *)
Theorem status_classification c req resp :
  Do (httpClient c) req = inl resp ->
  (StatusCode resp = http_StatusOK ->
   value (executeRequest (Value := Value) c req) = (Some resp, None))
  /\ (StatusCode resp <> http_StatusOK ->
      let api :=
        APIError (StatusCode resp) (Status resp)
          (Strings.TrimSpace (stream_data (Body resp))) in
      value (executeRequest (Value := Value) c req) = (None, Some api)
      /\ never is_decoding (trace (executeRequest (Value := Value) c req))
      /\ (forall dest route queryParams,
             In (EvDo req) (trace (get c dest route queryParams)) ->
             value (get c dest route queryParams)
             = (dest, Returned (Some (errors_Wrap api "executing HTTP request")))
             /\ never is_decoding (trace (get c dest route queryParams)))
      /\ (forall dest route body queryParams,
             In (EvDo req) (trace (postWithResp c dest route body queryParams)) ->
             value (postWithResp c dest route body queryParams)
             = (dest, Returned (Some (errors_Wrap api "executing HTTP request")))
             /\ never is_decoding
                  (trace (postWithResp c dest route body queryParams)))).
Proof.
  intros HDo. split.
  - intros H200%Z_eqb_is_200. run. now rewrite HDo, H200.
  - intros Hne%Z_eqb_200. cbv zeta. unfold never.
    repeat split.
    + run. now rewrite HDo, Hne.
    + run. now rewrite HDo, Hne.
    + revert H. run. branch; intros; sent; settle.
    + revert H. run. branch; intros; sent; settle.
    + revert H. run. branch; intros; sent; settle.
    + revert H. run. branch; intros; sent; settle.
Qed.

(** C2: the empty-body asymmetry. On a 200 response GET always calls the
    decoder, and fails with a decoding error when the body is empty (the
    decoder rejects empty input). POST-with-response on an empty body
    returns nil and the destination as it was, without decoding; on a body
    that is not empty it unmarshals into the destination, and fails with a
    decoding error exactly when that fails. *)
Theorem empty_body_asymmetry c req resp :
  Decode_rejects_empty_input json ->
  Do (httpClient c) req = inl resp ->
  StatusCode resp = http_StatusOK ->
  stream_err (Body resp) = None ->
  let data := stream_data (Body resp) in
  (forall dest route queryParams,
      In (EvDo req) (trace (get c dest route queryParams)) ->
      In (EvDecode (Body resp)) (trace (get c dest route queryParams))
      /\ (data = "" ->
          exists err,
            snd (value (get c dest route queryParams))
            = Returned (Some (errors_Wrap err "decoding response from server"))))
  /\ (forall dest route body queryParams,
         In (EvDo req) (trace (postWithResp c dest route body queryParams)) ->
         (data = "" ->
          value (postWithResp c dest route body queryParams)
          = (dest, Returned None)
          /\ never is_decoding
               (trace (postWithResp c dest route body queryParams)))
         /\ (data <> "" ->
             In (EvUnmarshal data)
                (trace (postWithResp c dest route body queryParams))
             /\ value (postWithResp c dest route body queryParams)
                = (fst (value (Unmarshal (Value := Value) data dest)),
                   decoded (snd (value (Unmarshal (Value := Value) data dest)))))).
Proof.
  intros Hjson HDo H200%Z_eqb_is_200 Herr data. subst data. split.
  - intros dest route queryParams Hin.
    assert (Hrej : stream_data (Body resp) = "" ->
                   json_Decode_nil (Body resp) <> None
                   /\ forall d, snd (json_Decode (Body resp) d) <> None)
      by (intro He; apply Hjson; split; assumption).
    revert Hin. run. branch; intros; sent; settle; (split; [tauto|]);
      intros He; destruct (Hrej He) as [Hnil Hd]; try congruence;
      try (eexists; reflexivity).
    + specialize (Hd d). rewrite Heqp0 in Hd. now destruct Hd.
  - intros dest route body queryParams Hin. unfold never.
    revert Hin. run. branch; intros; sent; settle;
      repeat match goal with
        | H : (len _ <=? 0)%Z = true |- _ => apply len_empty in H
        | H : (len _ <=? 0)%Z = false |- _ => apply len_nonempty in H
        end;
      (split; [intros He|intros Hne]); try congruence;
      try (split; reflexivity);
      repeat match goal with
        | H : json_Unmarshal ?x ?d = _, H' : json_Unmarshal ?x ?d = _ |- _ =>
            rewrite H in H'; injection H' as ? ?; subst
        | H : json_Unmarshal_nil _ = _ |- _ => rewrite H; clear H
        end;
      (split; [tauto | reflexivity]).
Qed.

(** Where the response body is closed: once, after a 200.  Shared by the
    statements on resource release. *)
Lemma body_closed_after_200 c req resp :
  Do (httpClient c) req = inl resp ->
  StatusCode resp = http_StatusOK ->
  (forall dest route queryParams,
      In (EvDo req) (trace (get c dest route queryParams)) ->
      filter is_Close (trace (get c dest route queryParams))
      = [EvClose (Body resp)])
  /\ (forall dest route body queryParams,
         In (EvDo req) (trace (postWithResp c dest route body queryParams)) ->
         filter is_Close (trace (postWithResp c dest route body queryParams))
         = [EvClose (Body resp)]).
Proof.
  intros HDo H200%Z_eqb_is_200.
  split; intros *; intros Hin; revert Hin; run; branch; intros; sent;
    settle.
Qed.

(** After any other status the body has been read by [executeRequest] and
    nothing closes it. *)
Lemma body_left_open_after_other_status c req resp :
  Do (httpClient c) req = inl resp ->
  StatusCode resp <> http_StatusOK ->
  (forall dest route queryParams,
      In (EvDo req) (trace (get c dest route queryParams)) ->
      In (EvReadAll (Body resp)) (trace (get c dest route queryParams))
      /\ never is_Close (trace (get c dest route queryParams)))
  /\ (forall dest route body queryParams,
         In (EvDo req) (trace (postWithResp c dest route body queryParams)) ->
         In (EvReadAll (Body resp))
            (trace (postWithResp c dest route body queryParams))
         /\ never is_Close
              (trace (postWithResp c dest route body queryParams))).
Proof.
  intros HDo Hne%Z_eqb_200. unfold never.
  split; intros *; intros Hin; revert Hin; run; branch; intros; sent;
    settle; (split; [tauto | reflexivity]).
Qed.

(** C4: the request body of a POST whose URL resolved. A body that is given
    is marshalled: when that fails the call returns the failure wrapped as
    an encoding error, having built and sent no request; when it succeeds
    the request is built with the marshalled bytes. With no body nothing is
    marshalled and the request is built over zero bytes. *)
Theorem request_body_encoding c dest route body queryParams u :
  makeURL (endpoint c) (router c) route queryParams = inl u ->
  let run := postWithResp c dest route body queryParams in
  match body with
  | Some b =>
      In (EvMarshal b) (trace run)
      /\ match json_Marshal b with
         | inr err =>
             run = ((dest,
                     Returned (Some (errors_Wrap err "encoding request body"))),
                    [EvMakeURL (endpoint c) route queryParams; EvMarshal b])
         | inl bodyBytes =>
             In (EvNewRequest "POST" u (Some bodyBytes)) (trace run)
         end
  | None =>
      never is_Marshal (trace run)
      /\ never is_Marshal (trace (post c route queryParams))
      /\ In (EvNewRequest "POST" u (Some "")) (trace run)
      /\ forall req, In (EvTokenSet req) (trace run) ->
                     Payload req = Some "" /\ len "" = 0%Z
  end.
Proof.
  intros Hu run0. subst run0. unfold never. destruct body as [b|].
  - split.
    + run. branch; tauto.
    + run. rewrite Hu. simpl. destruct (json_Marshal b) eqn:Hm.
      * simpl. tauto.
      * reflexivity.
  - repeat split; try (intros Hin; revert Hin); run; branch; intros; sent;
      settle; tauto.
Qed.

(** C5: the lesser POST primitives are the full one specialised. [post] is
    [postWithResp] with nil destination and nil body, [postWithBody] is
    [postWithResp] with nil destination: same error returned, same calls
    made, and there is no destination to report. *)
Theorem post_is_postWithResp_specialised c route body queryParams :
  post c route queryParams = spec_bare_post c route queryParams
  /\ postWithBody c route body queryParams
     = spec_post_no_response c route body queryParams
  /\ post c route queryParams = postWithBody c route None queryParams.
Proof.
  unfold spec_bare_post, spec_post_no_response, discard, post, postWithBody,
    bind, ret, value, trace.
  repeat split;
    match goal with
    | |- context [postWithResp ?c ?d ?r ?b ?q] =>
        destruct (postWithResp c d r b q) as [[d' o] t]
    end; simpl; now rewrite app_nil_r.
Qed.

(** When the execution step is reached: the URL resolved, the body (if any)
    marshalled and the request could be built.  The transport is then given
    the request as the credential left it. *)
Lemma execution_step_reached c dest route body queryParams u bodyBytes :
  makeURL (endpoint c) (router c) route queryParams = inl u ->
  match body with Some b => json_Marshal b | None => inl "" end = inl bodyBytes ->
  (NewRequest_err "GET" u = None ->
   In (EvDo (Token_Set (token c)
               {| Method := "GET"; URL := u; Payload := None; Header := [] |}))
      (trace (get c dest route queryParams)))
  /\ (NewRequest_err "POST" u = None ->
      In (EvDo (Token_Set (token c)
                  {| Method := "POST"; URL := u; Payload := Some bodyBytes;
                     Header := [] |}))
         (trace (postWithResp c dest route body queryParams))).
Proof.
  intros Hu Hb. split; intros Hr; run; rewrite Hu; simpl; rewrite ?Hr; simpl.
  - tauto.
  - destruct body as [b|]; simpl.
    + rewrite Hb. simpl. tauto.
    + injection Hb as <-. tauto.
Qed.

(** C6: credential attachment. In every GET or POST that hands a request to
    the transport, [token.Set] is applied exactly once, to the request just
    built, immediately before the transport is called with that request;
    the transport is called once. *)
Theorem credential_attached_once_before_sending c route queryParams :
  (forall dest sent,
      In (EvDo sent) (trace (get c dest route queryParams)) ->
      attached_once_then_sent (token c) (trace (get c dest route queryParams)))
  /\ (forall dest body sent,
         In (EvDo sent) (trace (postWithResp c dest route body queryParams)) ->
         attached_once_then_sent (token c)
           (trace (postWithResp c dest route body queryParams)))
  /\ (forall body sent,
         In (EvDo sent) (trace (postWithBody c route body queryParams)) ->
         attached_once_then_sent (token c)
           (trace (postWithBody c route body queryParams)))
  /\ (forall sent,
         In (EvDo sent) (trace (post c route queryParams)) ->
         attached_once_then_sent (token c) (trace (post c route queryParams))).
Proof.
  unfold attached_once_then_sent, never.
  repeat split; intros *; intros Hin; revert Hin; run; branch; intros;
    sent;
    first
      [ eexists [_; _], _, _; repeat split; reflexivity
      | eexists [_; _; _], _, _; repeat split; reflexivity ].
Qed.

(** C7: failed URL resolution. The primitive returns the resolver's error
    wrapped with the context "constructing URL"; the resolver call is the
    only call made: no request is built, no credential attached, nothing
    sent. *)
Theorem url_failure_returns_immediately c route queryParams err :
  makeURL (endpoint c) (router c) route queryParams = inr err ->
  let failure := Returned (Some (errors_Wrap err "constructing URL")) in
  let log := [EvMakeURL (Value := Value) (endpoint c) route queryParams] in
  (forall dest, get c dest route queryParams = ((dest, failure), log))
  /\ (forall dest body,
         postWithResp c dest route body queryParams = ((dest, failure), log))
  /\ (forall body, postWithBody c route body queryParams = (failure, log))
  /\ post c route queryParams = (failure, log)
  /\ never is_NewRequest log /\ never is_TokenSet log /\ never is_Do log
  /\ errors_Cause (errors_Wrap err "constructing URL") = errors_Cause err.
Proof.
  intros Hu. cbv zeta. unfold never.
  repeat split; intros; run; rewrite Hu; reflexivity.
Qed.

(** The two loops of [PostRelease] append one pair per element. *)
Lemma append_pairs (key : string) (l acc : list string) :
  fold_left (fun args x => args ++ [key; x]) l acc
  = acc ++ flat (map (pair key) l).
Proof.
  revert acc. induction l as [|x l IH]; intros acc; simpl.
  - now rewrite app_nil_r.
  - rewrite IH, <- app_assoc. reflexivity.
Qed.

Lemma flat_app (p q : list (string * string)) : flat (p ++ q) = flat p ++ flat q.
Proof. apply flat_map_app. Qed.

Lemma values_of_flat (key : string) (pairs : list (string * string)) :
  values_of key (flat pairs)
  = map snd (filter (fun kv => String.eqb (fst kv) key) pairs).
Proof.
  induction pairs as [|[k v] pairs IH]; simpl; [reflexivity|].
  destruct (String.eqb k key); simpl; now rewrite IH.
Qed.

Lemma filter_same_key (key : string) (l : list string) :
  filter (fun kv => String.eqb (fst kv) key) (map (pair key) l)
  = map (pair key) l.
Proof.
  induction l as [|x l IH]; simpl; [reflexivity|].
  now rewrite String.eqb_refl, IH.
Qed.

Lemma filter_other_key (key key' : string) (l : list string) :
  String.eqb key' key = false ->
  filter (fun kv => String.eqb (fst kv) key) (map (pair key') l) = [].
Proof.
  intros Hne. induction l as [|x l IH]; simpl; [reflexivity|].
  now rewrite Hne, IH.
Qed.

Lemma map_snd_pair (key : string) (l : list string) :
  map snd (map (pair key) l) = l.
Proof. induction l as [|x l IH]; simpl; [|rewrite IH]; reflexivity. Qed.

(** C8: the query parameters of [PostRelease]. The list given to the
    resolver is the flat form of ("image", imageSpec), ("kind", kind), one
    ("service", spec) per service spec and one ("exclude", ex) per exclude,
    in input order. Every instance is a pair of its own: the values under
    "service" are exactly the service specs and those under "exclude"
    exactly the excludes, repetitions included, and the list has two
    entries per pair. *)
Theorem PostRelease_query_parameters
  (postReleaseResponse : Dest) (ReleaseID : Dest -> string) c s :
  let args := flat (release_pairs s) in
  trace (PostRelease postReleaseResponse ReleaseID c s)
  = trace (postWithResp c (Some postReleaseResponse) "PostRelease" None args)
  /\ hd_error (trace (PostRelease postReleaseResponse ReleaseID c s))
     = Some (EvMakeURL (endpoint c) "PostRelease" args)
  /\ values_of "image" args = [ImageSpec s]
  /\ values_of "kind" args = [Kind s]
  /\ values_of "service" args = ServiceSpecs s
  /\ values_of "exclude" args = Excludes s
  /\ List.length args
     = (2 * (2 + List.length (ServiceSpecs s) + List.length (Excludes s)))%nat.
Proof.
  cbv zeta.
  assert (Hargs :
    fold_left (fun args ex => args ++ ["exclude"; ex]) (Excludes s)
      (fold_left (fun args spec => args ++ ["service"; spec]) (ServiceSpecs s)
         ["image"; ImageSpec s; "kind"; Kind s])
    = flat (release_pairs s)).
  { rewrite !append_pairs. unfold release_pairs.
    change (("image", ImageSpec s) :: ("kind", Kind s)
            :: map (pair "service") (ServiceSpecs s)
            ++ map (pair "exclude") (Excludes s))
      with ([("image", ImageSpec s); ("kind", Kind s)]
            ++ map (pair "service") (ServiceSpecs s)
            ++ map (pair "exclude") (Excludes s)).
    rewrite !flat_app, <- app_assoc. reflexivity. }
  assert (Htrace :
    trace (PostRelease postReleaseResponse ReleaseID c s)
    = trace (postWithResp c (Some postReleaseResponse) "PostRelease" None
               (flat (release_pairs s)))).
  { unfold PostRelease. cbv zeta. rewrite Hargs.
    generalize (postWithResp c (Some postReleaseResponse) "PostRelease" None
                  (flat (release_pairs s))).
    intros [[d o] t]. unfold bind, ret, trace. simpl.
    now rewrite app_nil_r. }
  split; [exact Htrace|]. split.
  { rewrite Htrace. reflexivity. }
  rewrite !values_of_flat. unfold release_pairs. simpl filter.
  rewrite !filter_app, !filter_same_key.
  rewrite !(filter_other_key "image"), !(filter_other_key "kind"),
    (filter_other_key "service" "exclude"),
    (filter_other_key "exclude" "service") by reflexivity.
  simpl. rewrite app_nil_r, !map_snd_pair.
  repeat split.
  unfold flat. rewrite (flat_map_constant_length (c := 2%nat)) by reflexivity.
  simpl List.length. rewrite length_app, !length_map. lia.
Qed.

(** C9: [executeRequest] never returns both a response and an error: with
    a non-nil error the response is nil, and a non-nil response comes with a
    nil error and has status 200. *)
Theorem executeRequest_response_xor_error c req :
  let r := value (executeRequest (Value := Value) c req) in
  (snd r <> None -> fst r = None)
  /\ (forall resp,
         fst r = Some resp -> snd r = None /\ StatusCode resp = http_StatusOK).
Proof.
  cbv zeta. run. branch; repeat split; intros; settle.
  - apply Z.eqb_eq. congruence.
Qed.

(** C10: a POST without destination still parses the body. After a 200
    whose body was read in full, [post] and [postWithBody] return nil when
    the body is empty; when it is not they unmarshal it into an empty
    interface, and return nil if that accepts the text, the wrapped decoding
    error if it does not. *)
Theorem post_without_destination_parses_body c req resp :
  Do (httpClient c) req = inl resp ->
  StatusCode resp = http_StatusOK ->
  stream_err (Body resp) = None ->
  let data := stream_data (Body resp) in
  let parsed (run : M Value outcome) :=
    (data = "" -> value run = Returned None)
    /\ (data <> "" ->
        In (EvUnmarshal data) (trace run)
        /\ (json_Unmarshal_nil data = None -> value run = Returned None)
        /\ (forall err,
               json_Unmarshal_nil data = Some err ->
               value run
               = Returned
                   (Some (errors_Wrap err "decoding response from server")))) in
  forall route queryParams,
    (forall body,
        In (EvDo req) (trace (postWithBody c route body queryParams)) ->
        parsed (postWithBody c route body queryParams))
    /\ (In (EvDo req) (trace (post c route queryParams)) ->
        parsed (post c route queryParams)).
Proof.
  intros HDo H200%Z_eqb_is_200 Herr data parsed route queryParams.
  subst data parsed. cbv beta.
  split; intros *; intros Hin; revert Hin; run; branch; intros; sent; settle;
    repeat match goal with
      | H : (len _ <=? 0)%Z = true |- _ => apply len_empty in H
      | H : (len _ <=? 0)%Z = false |- _ => apply len_nonempty in H
      end;
    (split; [intros He|intros Hne]); try congruence; try reflexivity;
    (split; [tauto|]); split; intros; congruence.
Qed.

End Facts.

(** ** The statements at work on the test doubles *)

Import Double.

Example TrimSpace_boom :
  Strings.TrimSpace (String (ascii_of_nat 9) " boom  x" ++ String (ascii_of_nat 10) " ")
  = "boom  x".
Proof. reflexivity. Qed.

(** NBSP before, LINE SEPARATOR after, a lone continuation byte kept. *)
Example TrimSpace_unicode :
  Strings.to_bytes
    (Strings.TrimSpace
       (Strings.of_bytes [194; 160; 32; 98; 111; 111; 109; 133; 226; 128; 168; 10]%N))
  = [98; 111; 111; 109; 133]%N.
Proof. reflexivity. Qed.

Example get_decodes_list :
  get ok_list (Some "old") "ListServices" namespace
  = ((Some "[{}]", Returned None),
     [EvMakeURL "http://flux" "ListServices" namespace;
      EvNewRequest "GET" "http://flux/v3/services?namespace=default" None;
      EvTokenSet {| Method := "GET";
                    URL := "http://flux/v3/services?namespace=default";
                    Payload := None; Header := [] |};
      EvDo get_services;
      EvDecode {| stream_data := "[{}]"; stream_err := None |};
      EvClose {| stream_data := "[{}]"; stream_err := None |}]).
Proof. reflexivity. Qed.

Lemma status_classification_witness :
  Do (httpClient boom) get_services
  = inl (response 500 "500 Internal Server Error" " boom ")
  /\ value (get boom (Some "old") "ListServices" namespace)
     = (Some "old",
        Returned
          (Some
             (errors_Wrap
                (APIError 500 "500 Internal Server Error" "boom")
                "executing HTTP request")))
  /\ never is_decoding (trace (get boom (Some "old") "ListServices" namespace)).
Proof.
  split; [reflexivity|].
  destruct (status_classification (Value := Value) (Dest := string)
              boom get_services
              (response 500 "500 Internal Server Error" " boom ") eq_refl)
    as [_ H].
  destruct (H ltac:(discriminate)) as (_ & _ & Hget & _).
  apply (Hget (Some "old") "ListServices" namespace).
  vm_compute. tauto.
Defined.

Lemma raw_JSON_rejects_empty_input : Decode_rejects_empty_input raw_JSON.
Proof.
  intros r [Hdata Herr]. simpl. unfold decode_stream.
  rewrite Hdata, Herr. split; [discriminate | intros d; discriminate].
Defined.

Lemma empty_body_asymmetry_witness :
  Decode_rejects_empty_input raw_JSON
  /\ Do (httpClient ok_empty) get_services = inl (response 200 "200 OK" "")
  /\ Do (httpClient ok_empty) post_automate = inl (response 200 "200 OK" "")
  /\ (exists err,
        snd (value (get ok_empty (Some "old") "ListServices" namespace))
        = Returned (Some (errors_Wrap err "decoding response from server")))
  /\ value (postWithResp ok_empty (Some "old") "Automate" None service)
     = (Some "old", Returned None).
Proof.
  split; [exact raw_JSON_rejects_empty_input|].
  split; [reflexivity|]. split; [reflexivity|]. split.
  - destruct (empty_body_asymmetry ok_empty get_services
                (response 200 "200 OK" "") raw_JSON_rejects_empty_input
                eq_refl eq_refl eq_refl) as [Hget _].
    destruct (Hget (Some "old") "ListServices" namespace) as [_ H].
    + vm_compute. tauto.
    + exact (H eq_refl).
  - destruct (empty_body_asymmetry ok_empty post_automate
                (response 200 "200 OK" "") raw_JSON_rejects_empty_input
                eq_refl eq_refl eq_refl) as [_ Hpost].
    destruct (Hpost (Some "old") "Automate" None service) as [H _].
    + vm_compute. tauto.
    + exact (proj1 (H eq_refl)).
Defined.

(** C3: resource release fails after a status other than 200. Against a
    server that answers 500, GET and POST read the response body and return
    the API error without closing it; after a 200 the same calls close it
    once. *)
Theorem response_body_left_open_after_500 :
  let body := {| stream_data := " boom "; stream_err := None |} in
  let api :=
    errors_Wrap (APIError 500 "500 Internal Server Error" "boom")
      "executing HTTP request" in
  let g := get boom (Some "old") "ListServices" namespace in
  let p := postWithResp boom (Some "old") "Automate" None service in
  value g = (Some "old", Returned (Some api))
  /\ In (EvReadAll body) (trace g) /\ count is_Close (trace g) = 0%nat
  /\ value p = (Some "old", Returned (Some api))
  /\ In (EvReadAll body) (trace p) /\ count is_Close (trace p) = 0%nat
  /\ count is_Close (trace (get ok_list (Some "old") "ListServices" namespace))
     = 1%nat
  /\ count is_Close
       (trace (postWithResp ok_list (Some "old") "Automate" None service))
     = 1%nat.
Proof.
  cbv zeta. repeat split; vm_compute; tauto.
Qed.

Lemma request_body_encoding_witness :
  makeURL (endpoint ok_list) (router ok_list) "SetConfig" []
  = inl "http://flux/v4/config"
  /\ postWithResp ok_list (Some "old") "SetConfig" (Some Channel) []
     = ((Some "old",
         Returned
           (Some
              (errors_Wrap (errorString "json: unsupported type: chan int")
                 "encoding request body"))),
        [EvMakeURL "http://flux" "SetConfig" []; EvMarshal Channel]).
Proof.
  split; [reflexivity|].
  exact (proj2 (request_body_encoding ok_list (Some "old") "SetConfig"
                  (Some Channel) [] "http://flux/v4/config" eq_refl)).
Defined.

Lemma credential_attached_once_before_sending_witness :
  In (EvDo get_services)
     (trace (get ok_list (Some "old") "ListServices" namespace))
  /\ attached_once_then_sent "secret"
       (trace (get ok_list (Some "old") "ListServices" namespace)).
Proof.
  assert (Hin : In (EvDo get_services)
                   (trace (get ok_list (Some "old") "ListServices" namespace)))
    by (vm_compute; tauto).
  split; [exact Hin|].
  exact (proj1 (credential_attached_once_before_sending (Value := Value)
                  ok_list "ListServices" namespace)
           (Some "old") get_services Hin).
Defined.

Lemma url_failure_returns_immediately_witness :
  makeURL (endpoint ok_list) (router ok_list) "Nope" service
  = inr (errorString "unknown route Nope")
  /\ post (Value := Value) (Dest := string) ok_list "Nope" service
     = (Returned
          (Some
             (errors_Wrap (errorString "unknown route Nope") "constructing URL")),
        [EvMakeURL "http://flux" "Nope" service]).
Proof.
  split; [reflexivity|].
  destruct (url_failure_returns_immediately (Value := Value) (Dest := string)
              ok_list "Nope" service (errorString "unknown route Nope") eq_refl)
    as (_ & _ & _ & H & _).
  exact H.
Defined.

Lemma executeRequest_response_xor_error_witness :
  snd (value (executeRequest (Value := Value) boom get_services)) <> None
  /\ fst (value (executeRequest (Value := Value) boom get_services)) = None.
Proof.
  assert (H : snd (value (executeRequest (Value := Value) boom get_services))
              <> None) by (vm_compute; discriminate).
  split; [exact H|].
  exact (proj1 (executeRequest_response_xor_error (Value := Value)
                  boom get_services) H).
Defined.

Lemma post_without_destination_parses_body_witness :
  Do (httpClient ok_garbage) post_automate
  = inl (response 200 "200 OK" "<html>")
  /\ In (EvDo post_automate)
        (trace (post (Value := Value) (Dest := string)
                  ok_garbage "Automate" service))
  /\ json_Unmarshal_nil "<html>" = Some SyntaxError
  /\ value (post (Value := Value) (Dest := string) ok_garbage "Automate" service)
     = Returned (Some (errors_Wrap SyntaxError "decoding response from server")).
Proof.
  assert (Hin : In (EvDo post_automate)
                   (trace (post (Value := Value) (Dest := string)
                             ok_garbage "Automate" service)))
    by (vm_compute; tauto).
  split; [reflexivity|]. split; [exact Hin|]. split; [reflexivity|].
  destruct (post_without_destination_parses_body (Value := Value)
              (Dest := string) ok_garbage post_automate
              (response 200 "200 OK" "<html>") eq_refl eq_refl eq_refl
              "Automate" service) as [_ Hpost].
  destruct (Hpost Hin) as [_ H].
  destruct (H ltac:(discriminate)) as (_ & _ & Herr).
  exact (Herr SyntaxError eq_refl).
Defined.

(** ** Further properties of the primitives *)

Section Failures.
Context {HTTPClient Token Router Value Dest : Type}.
Context {transport : Transport HTTPClient} {credential : Credential Token}
        {resolver : RouteResolver Router} {json : JSON Value Dest}
        {builder : RequestBuilder}.

Local Abbreviation client := (client HTTPClient Token Router).

Implicit Types (c : client) (dest : destination (Dest := Dest))
  (route : string) (queryParams : list string) (body : option Value)
  (req : Request) (resp : Response) (err : error).

(** X1: transport failure. When the transport fails, [executeRequest]
    returns no response and the failure wrapped with "executing HTTP
    request"; GET and POST wrap it with the same context once more and
    return it with the destination as it was. The transport call is the last
    call made, and the cause of the returned error is the cause of the
    transport's. *)
Theorem transport_failure_wrapped_twice c req err :
  Do (httpClient c) req = inr err ->
  let once := errors_Wrap err "executing HTTP request" in
  let twice := errors_Wrap once "executing HTTP request" in
  executeRequest (Value := Value) c req = ((None, Some once), [EvDo req])
  /\ errors_Cause twice = errors_Cause err
  /\ (forall dest route queryParams,
         In (EvDo req) (trace (get c dest route queryParams)) ->
         value (get c dest route queryParams) = (dest, Returned (Some twice))
         /\ exists before,
              trace (get c dest route queryParams) = before ++ [EvDo req])
  /\ (forall dest route body queryParams,
         In (EvDo req) (trace (postWithResp c dest route body queryParams)) ->
         value (postWithResp c dest route body queryParams)
         = (dest, Returned (Some twice))
         /\ exists before,
              trace (postWithResp c dest route body queryParams)
              = before ++ [EvDo req]).
Proof.
  intros HDo. cbv zeta. split; [|split; [reflexivity|split]].
  - run. now rewrite HDo.
  - intros dest route queryParams Hin. revert Hin.
    run. branch; intros; sent; settle.
    split; [reflexivity|]. now eexists [_; _; _].
  - intros dest route body queryParams Hin. revert Hin.
    run. branch; intros; sent; settle;
      (split; [reflexivity|]);
      first [now eexists [_; _; _] | now eexists [_; _; _; _]].
Qed.

(** X2: request construction failure. When the URL resolved (and the body,
    if any, marshalled) but [http.NewRequest] fails, the primitive returns
    that failure wrapped with "constructing request " followed by the URL,
    the destination as it was; the credential is not applied and nothing is
    sent. *)
Theorem request_construction_failure c dest route body queryParams u err :
  makeURL (endpoint c) (router c) route queryParams = inl u ->
  let failure :=
    Returned (Some (errors_Wrap err ("constructing request " ++ u))) in
  (NewRequest_err "GET" u = Some err ->
   get c dest route queryParams
   = ((dest, failure),
      [EvMakeURL (endpoint c) route queryParams; EvNewRequest "GET" u None]))
  /\ (forall bodyBytes,
         payload_of body = inl bodyBytes ->
         NewRequest_err "POST" u = Some err ->
         value (postWithResp c dest route body queryParams) = (dest, failure)
         /\ never is_TokenSet (trace (postWithResp c dest route body queryParams))
         /\ never is_Do (trace (postWithResp c dest route body queryParams))
         /\ In (EvNewRequest "POST" u (Some bodyBytes))
               (trace (postWithResp c dest route body queryParams))).
Proof.
  intros Hu. cbv zeta. unfold never, payload_of. split.
  - intros Hr. run. now rewrite Hu; simpl; rewrite Hr.
  - intros bodyBytes Hb Hr. run. rewrite Hu. simpl.
    destruct body as [b|]; simpl.
    + rewrite Hb. simpl. rewrite Hr. simpl. tauto.
    + injection Hb as <-. rewrite Hr. simpl. tauto.
Qed.

(** X3: read failure after a 200. When reading the body of a 200 response
    fails, POST-with-response returns the read failure wrapped with
    "decoding response from server", whatever was read before the failure:
    nothing is unmarshalled, the destination is as it was, and the body is
    closed as the last call. *)
Theorem read_failure_after_200 c req resp err :
  Do (httpClient c) req = inl resp ->
  StatusCode resp = http_StatusOK ->
  stream_err (Body resp) = Some err ->
  forall dest route body queryParams,
    In (EvDo req) (trace (postWithResp c dest route body queryParams)) ->
    value (postWithResp c dest route body queryParams)
    = (dest,
       Returned (Some (errors_Wrap err "decoding response from server")))
    /\ never is_decoding (trace (postWithResp c dest route body queryParams))
    /\ exists before,
         trace (postWithResp c dest route body queryParams)
         = before ++ [EvDo req; EvReadAll (Body resp); EvClose (Body resp)].
Proof.
  intros HDo H200%Z_eqb_is_200 Herr dest route body queryParams Hin.
  unfold never. revert Hin. run. branch; intros; sent; settle;
    match goal with
    | H : stream_err ?b = Some ?e, H' : stream_err ?b = Some ?e' |- _ =>
        assert (e' = e) by congruence; subst e'
    end;
    (split; [reflexivity|]); (split; [reflexivity|]);
    first [now eexists [_; _; _] | now eexists [_; _; _; _]].
Qed.

(** X4: only decoding writes to the destination. If a GET or a POST made no
    call to the JSON decoder, the destination it returns is the one it was
    given; a POST without destination returns none in every case. *)
Theorem destination_written_only_by_decoding c dest route body queryParams :
  (never is_decoding (trace (get c dest route queryParams)) ->
   fst (value (get c dest route queryParams)) = dest)
  /\ (never is_decoding (trace (postWithResp c dest route body queryParams)) ->
      fst (value (postWithResp c dest route body queryParams)) = dest)
  /\ fst (value (postWithResp c None route body queryParams)) = None.
Proof.
  unfold never. repeat split; try (intros Hn; revert Hn);
    run; branch; intros; settle.
Qed.

End Failures.

(** Case analysis on the log of a call, keeping the statement about it
    folded until the log is known. *)
Ltac on_log :=
  match goal with
  | |- context [trace ?m] =>
      let t := fresh "t" in
      let Ht := fresh "Ht" in
      remember (trace m) as t eqn:Ht; run; branch; subst t
  end.

Section Order.
Context {HTTPClient Token Router Value Dest : Type}.
Context {transport : Transport HTTPClient} {credential : Credential Token}
        {resolver : RouteResolver Router} {json : JSON Value Dest}
        {builder : RequestBuilder}.

Local Abbreviation client := (client HTTPClient Token Router).

Implicit Types (c : client) (dest : destination (Dest := Dest))
  (route : string) (queryParams : list string) (body : option Value)
  (req : Request) (resp : Response) (err : error).

(** X5: phase order, no retry. The calls of every primitive occur in the
    order of the phases, each phase at most once: the URL is resolved exactly
    once, first, and the transport is called at most once, whatever fails. *)
Theorem calls_in_phase_order c dest route body queryParams req :
  increasing (map phase (trace (get c dest route queryParams))) = true
  /\ increasing
       (map phase (trace (postWithResp c dest route body queryParams))) = true
  /\ increasing (map phase (trace (postWithBody c route body queryParams)))
     = true
  /\ increasing (map phase (trace (post c route queryParams))) = true
  /\ increasing (map phase (trace (executeRequest (Value := Value) c req)))
     = true
  /\ (count is_Do (trace (get c dest route queryParams)) <= 1)%nat
  /\ (count is_Do (trace (postWithResp c dest route body queryParams)) <= 1)%nat
  /\ hd_error (trace (get c dest route queryParams))
     = Some (EvMakeURL (endpoint c) route queryParams)
  /\ hd_error (trace (postWithResp c dest route body queryParams))
     = Some (EvMakeURL (endpoint c) route queryParams)
  /\ count is_MakeURL (trace (get c dest route queryParams)) = 1%nat
  /\ count is_MakeURL (trace (postWithResp c dest route body queryParams))
     = 1%nat.
Proof.
  repeat split; on_log; unfold count; simpl; try reflexivity; lia.
Qed.

(** X6: every error has a phase, and no panic. A GET or a POST always
    returns (the nil dereference of the response is never reached), and an
    error it returns is never bare: it is some cause wrapped with the context
    line of the phase that failed. *)
Theorem errors_carry_phase_context c dest route body queryParams :
  let wrapped (r : outcome) :=
    r <> Panicked
    /\ forall err,
         r = Returned (Some err) ->
         exists cause msg, err = errors_Wrap cause msg /\ phase_context msg in
  wrapped (snd (value (get c dest route queryParams)))
  /\ wrapped (snd (value (postWithResp c dest route body queryParams)))
  /\ wrapped (value (postWithBody c route body queryParams))
  /\ wrapped (value (post c route queryParams)).
Proof.
  cbv zeta. unfold phase_context.
  repeat split; run; branch; intros;
    repeat match goal with
      | H : (_, _) = (_, _) |- _ => injection H as ? ?; subst
      end;
    try congruence;
    match goal with
    | H : Returned _ = Returned _ |- _ => injection H as <-
    end;
    eexists _, _; (split; [reflexivity|]);
    first [ left; reflexivity
          | right; left; reflexivity
          | right; right; left; eexists; reflexivity
          | right; right; right; left; reflexivity
          | right; right; right; right; reflexivity ].
Qed.

(** X7: what is sent. The only request a GET hands to the transport is the
    GET of the resolved URL, without payload, as the credential left it; the
    only request a POST hands to it is the POST of the resolved URL whose
    payload is the marshalled body, or no bytes when there is no body. *)
Theorem request_sent_is_the_resolved_url c dest route body queryParams u req :
  makeURL (endpoint c) (router c) route queryParams = inl u ->
  (In (EvDo req) (trace (get c dest route queryParams)) ->
   req = Token_Set (token c)
           {| Method := "GET"; URL := u; Payload := None; Header := [] |})
  /\ (In (EvDo req) (trace (postWithResp c dest route body queryParams)) ->
      exists bodyBytes,
        payload_of body = inl bodyBytes
        /\ req = Token_Set (token c)
                   {| Method := "POST"; URL := u; Payload := Some bodyBytes;
                      Header := [] |}).
Proof.
  intros Hu. unfold payload_of.
  split; intros Hin; revert Hin; run; rewrite Hu; simpl; branch; intros;
    sent; settle; try (eexists; split; [eassumption || reflexivity|reflexivity]).
Qed.

(** X8: after a 200 the body is closed last, once. On every path of a GET
    or POST that received a 200 (decoded, failed to decode, failed to read,
    empty body) the close of the response body is the last call of the log
    and the only close. *)
Theorem body_closed_last_after_200 c req resp :
  Do (httpClient c) req = inl resp ->
  StatusCode resp = http_StatusOK ->
  (forall dest route queryParams,
      In (EvDo req) (trace (get c dest route queryParams)) ->
      exists before,
        trace (get c dest route queryParams) = before ++ [EvClose (Body resp)]
        /\ never is_Close before)
  /\ (forall dest route body queryParams,
         In (EvDo req) (trace (postWithResp c dest route body queryParams)) ->
         exists before,
           trace (postWithResp c dest route body queryParams)
           = before ++ [EvClose (Body resp)]
           /\ never is_Close before).
Proof.
  intros HDo H200%Z_eqb_is_200. unfold never.
  split; intros *; intros Hin; revert Hin; run; branch; intros; sent; settle;
    first [ now eexists [_; _; _; _; _]
          | now eexists [_; _; _; _; _; _]
          | now eexists [_; _; _; _; _; _; _]
          | now eexists [_; _; _; _; _; _; _; _] ].
Qed.

End Order.

Section Operations.
Context {HTTPClient Token Router Value Dest : Type}.
Context {transport : Transport HTTPClient} {credential : Credential Token}
        {resolver : RouteResolver Router} {json : JSON Value Dest}
        {builder : RequestBuilder}.

Local Abbreviation client := (client HTTPClient Token Router).

Implicit Types (c : client) (dest : destination (Dest := Dest))
  (route : string) (queryParams : list string) (body : option Value)
  (req : Request) (resp : Response) (err : error).

Lemma post_action c route queryParams :
  action_contract c route queryParams (post c route queryParams).
Proof.
  unfold action_contract, never, empty_body.
  split; [|split; [|split]].
  - on_log; reflexivity.
  - on_log; reflexivity.
  - intros req Hin. revert Hin. run. branch; intros; sent; settle;
      eexists; split; reflexivity.
  - intros req resp Hin HDo. split.
    + intros Hne%Z_eqb_200. revert Hin. run. branch; intros; sent; settle.
      eexists; split; reflexivity.
    + intros H200%Z_eqb_is_200 [Hdata Herr]. revert Hin. run.
      branch; intros; sent; settle;
        match goal with
        | H : (len _ <=? 0)%Z = false |- _ => apply len_nonempty in H
        end; congruence.
Qed.

(** X9: the service actions. [Automate], [Deautomate], [Lock] and [Unlock]
    post to the route of their name with the one pair ("service", id), and
    [GenerateDeployKey] posts to "GenerateDeployKeys" without parameters; each
    keeps the contract of an action: no body marshalled, a POST of the
    resolved URL over zero bytes, an [APIError] as the cause of the error
    after a status other than 200, nil after a 200 with an empty body. *)
Theorem service_actions_keep_the_action_contract c id :
  action_contract c "Automate" ["service"; id] (Automate c id)
  /\ action_contract c "Deautomate" ["service"; id] (Deautomate c id)
  /\ action_contract c "Lock" ["service"; id] (Lock c id)
  /\ action_contract c "Unlock" ["service"; id] (Unlock c id)
  /\ action_contract c "GenerateDeployKeys" [] (GenerateDeployKey c).
Proof.
  unfold Automate, Deautomate, Lock, Unlock, GenerateDeployKey.
  repeat apply conj; apply post_action.
Qed.

(** X10: [SetConfig] sends the marshalled configuration. Once the route
    "SetConfig" resolved, the configuration is marshalled; if that fails the
    call returns the failure wrapped as an encoding error and makes no other
    call; otherwise the only request sent is the POST of the resolved URL
    whose payload is the marshalled configuration. *)
Theorem SetConfig_sends_the_marshalled_config c (config : Value) u :
  makeURL (endpoint c) (router c) "SetConfig" [] = inl u ->
  In (EvMarshal config) (trace (SetConfig c config))
  /\ (forall err,
         json_Marshal config = inr err ->
         SetConfig c config
         = (Returned (Some (errors_Wrap err "encoding request body")),
            [EvMakeURL (endpoint c) "SetConfig" []; EvMarshal config]))
  /\ (forall req,
         In (EvDo req) (trace (SetConfig c config)) ->
         exists bodyBytes,
           json_Marshal config = inl bodyBytes
           /\ req = Token_Set (token c)
                      {| Method := "POST"; URL := u; Payload := Some bodyBytes;
                         Header := [] |}).
Proof.
  intros Hu. split; [|split].
  - run. rewrite Hu. simpl. tauto.
  - intros err Hm. run. rewrite Hu. simpl. rewrite Hm. reflexivity.
  - intros req Hin. revert Hin. run. rewrite Hu. simpl.
    branch; intros; sent; settle; eexists; split; reflexivity.
Qed.

(** X11: the job id [PostRelease] returns. It marshals no body. Without a
    call to the decoder (any failure before, or a 200 with an empty body) the
    id is that of the zero response; in particular a 200 with an empty body
    gives the zero id and no error. After a 200 with a body the id is read
    from whatever [Unmarshal] left in the response variable, returned
    together with the decoding error if there was one. *)
Theorem PostRelease_job_id
  (postReleaseResponse : Dest) (ReleaseID : Dest -> string) c s :
  let run := PostRelease postReleaseResponse ReleaseID c s in
  never is_Marshal (trace run)
  /\ (never is_decoding (trace run) ->
      fst (value run) = ReleaseID postReleaseResponse)
  /\ (forall req resp,
         In (EvDo req) (trace run) ->
         Do (httpClient c) req = inl resp ->
         StatusCode resp = http_StatusOK ->
         stream_err (Body resp) = None ->
         let data := stream_data (Body resp) in
         (data = "" -> value run = (ReleaseID postReleaseResponse, Returned None))
         /\ (data <> "" ->
             value run
             = (ReleaseID (fst (json_Unmarshal data postReleaseResponse)),
                decoded (snd (json_Unmarshal data postReleaseResponse))))).
Proof.
  cbv zeta. unfold PostRelease, never.
  generalize
    (fold_left (fun args ex => args ++ ["exclude"; ex]) (Excludes s)
       (fold_left (fun args spec => args ++ ["service"; spec]) (ServiceSpecs s)
          ["image"; ImageSpec s; "kind"; Kind s])).
  intros args. split; [|split].
  - on_log; reflexivity.
  - intros Hn. revert Hn. run. branch; intros; settle.
  - intros req resp Hin HDo H200%Z_eqb_is_200 Herr. revert Hin. run.
    branch; intros; sent; settle;
      repeat match goal with
        | H : (len _ <=? 0)%Z = true |- _ => apply len_empty in H
        | H : (len _ <=? 0)%Z = false |- _ => apply len_nonempty in H
        end;
      (split; [intros He|intros Hne]); try congruence; try reflexivity;
      repeat match goal with
        | H : json_Unmarshal ?x ?d = _ |- context [json_Unmarshal ?x ?d] =>
            rewrite H
        end; reflexivity.
Qed.

Lemma query_pattern c (zero : Dest) route queryParams :
  query_contract c zero route queryParams
    (bind (get c (Some zero) route queryParams)
       (fun x => let (res', err) := x in
                 ret (match res' with Some r => r | None => zero end, err))).
Proof.
  unfold query_contract, never. split; [|split; [|split]].
  - generalize (get c (Some zero) route queryParams). intros [[d o] t].
    unfold bind, ret, trace. simpl. now rewrite app_nil_r.
  - generalize (get c (Some zero) route queryParams). intros [[d o] t].
    reflexivity.
  - intros Hn. revert Hn. run. branch; intros; settle.
  - intros req resp Hin HDo H200%Z_eqb_is_200. revert Hin. run.
    branch; intros; sent; settle;
      repeat match goal with
        | H : json_Decode ?x ?d = _ |- context [json_Decode ?x ?d] =>
            rewrite H
        end; reflexivity.
Qed.

(** X12: the queries. [ListServices], [ListImages], [GetRelease], [History],
    [GetConfig] and [Status] each get their route with their one parameter
    (none for the last two) into a result variable that starts as the zero
    value, and keep the contract of a query: the calls and the error of
    [get]; the zero value as result whenever nothing was decoded (so no
    partial result on a transport or API error); after a 200, what [Decode]
    left in the variable, also when decoding failed. *)
Theorem queries_keep_the_query_contract
  (z1 z2 z3 z4 z5 z6 : Dest) c (arg : string) :
  query_contract c z1 "ListServices" ["namespace"; arg] (ListServices z1 c arg)
  /\ query_contract c z2 "ListImages" ["service"; arg] (ListImages z2 c arg)
  /\ query_contract c z3 "GetRelease" ["id"; arg] (GetRelease z3 c arg)
  /\ query_contract c z4 "History" ["service"; arg] (History z4 c arg)
  /\ query_contract c z5 "GetConfig" [] (GetConfig z5 c)
  /\ query_contract c z6 "Status" [] (Status_ z6 c).
Proof.
  unfold ListServices, ListImages, GetRelease, History, GetConfig, Status_.
  repeat apply conj; apply query_pattern.
Qed.

End Operations.

Section Trimming.

Import Strings.

Lemma white_space_app (l1 l2 : list N) :
  white_space l1 -> white_space l2 -> white_space (l1 ++ l2).
Proof.
  induction 1 as [|b l Hb _ IH|b1 b2 l Hb _ IH|b1 b2 b3 l Hb _ IH];
    intros H2; simpl.
  - assumption.
  - apply white_space_ascii; auto.
  - apply white_space_2; auto.
  - apply white_space_3; auto.
Qed.

Lemma trimLeft_bounded (n : nat) :
  forall l, (List.length l <= n)%nat ->
    starts_with_space (trimLeft l) = false
    /\ exists pre, l = pre ++ trimLeft l /\ white_space pre.
Proof.
  induction n as [|n IH]; intros l Hl.
  - destruct l; [|simpl in Hl; lia]. split; [reflexivity|].
    exists []. split; [reflexivity|constructor].
  - destruct l as [|b1 t1]; [split; [reflexivity|exists []; split; [reflexivity|constructor]]|].
    simpl in Hl. cbn [trimLeft].
    destruct (asciiSpace b1) eqn:H1.
    { destruct (IH t1 ltac:(lia)) as [Hs (pre & Hp & Hw)]. split; [exact Hs|].
      exists (b1 :: pre). split; [simpl; congruence|now constructor]. }
    destruct t1 as [|b2 t2].
    { split; [simpl; now rewrite H1|]. exists []. split; [reflexivity|constructor]. }
    destruct (space2 b1 b2) eqn:H2.
    { simpl in Hl. destruct (IH t2 ltac:(lia)) as [Hs (pre & Hp & Hw)].
      split; [exact Hs|].
      exists (b1 :: b2 :: pre). split; [simpl; congruence|now constructor]. }
    destruct t2 as [|b3 t3].
    { split; [simpl; now rewrite H1, H2|].
      exists []. split; [reflexivity|constructor]. }
    destruct (space3 b1 b2 b3) eqn:H3.
    { simpl in Hl. destruct (IH t3 ltac:(lia)) as [Hs (pre & Hp & Hw)].
      split; [exact Hs|].
      exists (b1 :: b2 :: b3 :: pre). split; [simpl; congruence|now constructor]. }
    split; [simpl; now rewrite H1, H2, H3|].
    exists []. split; [reflexivity|constructor].
Qed.

Lemma trimRightRev_bounded (n : nat) :
  forall l, (List.length l <= n)%nat ->
    ends_with_space_rev (trimRightRev l) = false
    /\ exists suf, l = suf ++ trimRightRev l /\ white_space (rev suf).
Proof.
  induction n as [|n IH]; intros l Hl.
  - destruct l; [|simpl in Hl; lia]. split; [reflexivity|].
    exists []. split; [reflexivity|constructor].
  - destruct l as [|b1 t1]; [split; [reflexivity|exists []; split; [reflexivity|constructor]]|].
    simpl in Hl. cbn [trimRightRev].
    destruct (asciiSpace b1) eqn:H1.
    { destruct (IH t1 ltac:(lia)) as [Hs (suf & Hp & Hw)]. split; [exact Hs|].
      exists (b1 :: suf). split; [simpl; congruence|].
      simpl. apply white_space_app; [assumption|]. now repeat constructor. }
    destruct t1 as [|b2 t2].
    { split; [simpl; now rewrite H1|]. exists []. split; [reflexivity|constructor]. }
    destruct (space2 b2 b1) eqn:H2.
    { simpl in Hl. destruct (IH t2 ltac:(lia)) as [Hs (suf & Hp & Hw)].
      split; [exact Hs|].
      exists (b1 :: b2 :: suf). split; [simpl; congruence|].
      simpl. rewrite <- app_assoc. apply white_space_app; [assumption|].
      simpl. apply white_space_2; [assumption|constructor]. }
    destruct t2 as [|b3 t3].
    { split; [simpl; now rewrite H1, H2|].
      exists []. split; [reflexivity|constructor]. }
    destruct (space3 b3 b2 b1) eqn:H3.
    { simpl in Hl. destruct (IH t3 ltac:(lia)) as [Hs (suf & Hp & Hw)].
      split; [exact Hs|].
      exists (b1 :: b2 :: b3 :: suf). split; [simpl; congruence|].
      simpl. rewrite <- !app_assoc. apply white_space_app; [assumption|].
      simpl. apply white_space_3; [assumption|constructor]. }
    split; [simpl; now rewrite H1, H2, H3|].
    exists []. split; [reflexivity|constructor].
Qed.

Lemma starts_with_space_prefix (p q : list N) :
  starts_with_space (p ++ q) = false -> starts_with_space p = false.
Proof.
  destruct p as [|b1 [|b2 [|b3 p]]]; simpl; try reflexivity; try tauto;
    intros H; repeat (apply orb_false_iff in H; destruct H as [? H]);
    repeat (apply orb_false_iff; split); auto.
Qed.

Lemma to_bytes_of_bytes (l : list N) :
  Forall (fun n => (n < 256)%N) l -> to_bytes (of_bytes l) = l.
Proof.
  unfold to_bytes, of_bytes. rewrite list_ascii_of_string_of_list_ascii.
  induction 1 as [|n l Hn _ IH]; simpl; [reflexivity|].
  now rewrite N_ascii_embedding, IH.
Qed.

Lemma to_bytes_small (s : string) : Forall (fun n => (n < 256)%N) (to_bytes s).
Proof.
  unfold to_bytes. induction (list_ascii_of_string s); simpl; constructor;
    [apply N_ascii_bounded|assumption].
Qed.

(** What [TrimSpace] returns: the text is white space, then the result, then
    white space, and the result neither starts nor ends with a white-space
    rune. *)
Lemma TrimSpace_spec (s : string) :
  exists pre post,
    to_bytes s = pre ++ to_bytes (TrimSpace s) ++ post
    /\ white_space pre /\ white_space post
    /\ starts_with_space (to_bytes (TrimSpace s)) = false
    /\ ends_with_space (to_bytes (TrimSpace s)) = false.
Proof.
  unfold TrimSpace.
  destruct (trimLeft_bounded _ (to_bytes s) (le_n _)) as [Hstart (pre & Hpre & Hwpre)].
  set (x := trimLeft (to_bytes s)) in *.
  destruct (trimRightRev_bounded _ (rev x) (le_n _)) as [Hend (suf & Hsuf & Hwsuf)].
  set (r := rev (trimRightRev (rev x))).
  assert (Hx : x = r ++ rev suf).
  { unfold r. rewrite <- rev_app_distr, <- Hsuf. now rewrite rev_involutive. }
  assert (Hr : to_bytes (of_bytes r) = r).
  { apply to_bytes_of_bytes. pose proof (to_bytes_small s) as Hall.
    rewrite Hpre, Hx in Hall. apply Forall_app in Hall as [_ Hall].
    now apply Forall_app in Hall as [Hall _]. }
  rewrite Hr. exists pre, (rev suf). repeat split.
  - now rewrite <- Hx.
  - assumption.
  - assumption.
  - apply starts_with_space_prefix with (q := rev suf). now rewrite <- Hx.
  - unfold ends_with_space, r. now rewrite rev_involutive.
Qed.

Lemma space2_first (b1 b2 : N) :
  space2 b1 b2 = true -> asciiSpace b1 = false.
Proof.
  unfold space2. destruct (N.eqb_spec b1 194) as [->|]; [reflexivity|].
  discriminate.
Qed.

Lemma space3_first (b1 b2 b3 : N) :
  space3 b1 b2 b3 = true -> asciiSpace b1 = false /\ space2 b1 b2 = false.
Proof.
  unfold space3, space2.
  destruct (N.eqb_spec b1 225) as [->|]; [split; reflexivity|].
  destruct (N.eqb_spec b1 226) as [->|]; [split; reflexivity|].
  destruct (N.eqb_spec b1 227) as [->|]; [split; reflexivity|].
  discriminate.
Qed.

Lemma trimLeft_white_space (l : list N) : white_space l -> trimLeft l = [].
Proof.
  induction 1 as [|b l Hb _ IH|b1 b2 l Hb _ IH|b1 b2 b3 l Hb _ IH];
    cbn [trimLeft].
  - reflexivity.
  - now rewrite Hb.
  - now rewrite (space2_first _ _ Hb), Hb.
  - destruct (space3_first _ _ _ Hb) as [H1 H2]. now rewrite H1, H2, Hb.
Qed.

End Trimming.

Section Diagnostics.
Context {HTTPClient Token Router Value Dest : Type}.
Context {transport : Transport HTTPClient} {credential : Credential Token}
        {resolver : RouteResolver Router} {json : JSON Value Dest}
        {builder : RequestBuilder}.

(** X13: the text of an [APIError]. After a status other than 200 the body
    of the error is the body read from the response without its white space
    at both ends: the text read is white-space runes, then the error's body,
    then white-space runes, and the error's body neither starts nor ends
    with a white-space rune; a body of white space only gives the empty
    text. *)
Theorem APIError_body_is_trimmed (c : client HTTPClient Token Router) req resp :
  Do (httpClient c) req = inl resp ->
  StatusCode resp <> http_StatusOK ->
  exists text,
    snd (value (executeRequest (Value := Value) c req))
    = Some (APIError (StatusCode resp) (Status resp) text)
    /\ (exists pre post,
          Strings.to_bytes (stream_data (Body resp))
          = pre ++ Strings.to_bytes text ++ post
          /\ white_space pre /\ white_space post)
    /\ starts_with_space (Strings.to_bytes text) = false
    /\ ends_with_space (Strings.to_bytes text) = false
    /\ (white_space (Strings.to_bytes (stream_data (Body resp))) ->
        text = "").
Proof.
  intros HDo Hne%Z_eqb_200.
  exists (Strings.TrimSpace (stream_data (Body resp))). split.
  - run. now rewrite HDo, Hne.
  - destruct (TrimSpace_spec (stream_data (Body resp)))
      as (pre & post & Heq & Hpre & Hpost & Hs & He).
    split; [now exists pre, post|]. split; [exact Hs|]. split; [exact He|].
    intros Hw. unfold Strings.TrimSpace.
    now rewrite (trimLeft_white_space _ Hw).
Qed.

End Diagnostics.

(** ** The further properties at work on the test doubles *)

Lemma transport_failure_wrapped_twice_witness :
  Do (httpClient down) get_services = inr (errorString "connection refused")
  /\ In (EvDo get_services)
        (trace (get down (Some "old") "ListServices" namespace))
  /\ value (get down (Some "old") "ListServices" namespace)
     = (Some "old",
        Returned
          (Some
             (errors_Wrap
                (errors_Wrap (errorString "connection refused")
                   "executing HTTP request")
                "executing HTTP request"))).
Proof.
  assert (Hin : In (EvDo get_services)
                   (trace (get down (Some "old") "ListServices" namespace)))
    by (vm_compute; tauto).
  split; [reflexivity|]. split; [exact Hin|].
  destruct (transport_failure_wrapped_twice (Value := Value) (Dest := string)
              down get_services (errorString "connection refused") eq_refl)
    as (_ & _ & Hget & _).
  exact (proj1 (Hget (Some "old") "ListServices" namespace Hin)).
Defined.

Lemma request_construction_failure_witness :
  makeURL (endpoint ok_list) (router ok_list) "ListServices" namespace
  = inl "http://flux/v3/services?namespace=default"
  /\ NewRequest_err (RequestBuilder := no_request) "GET"
       "http://flux/v3/services?namespace=default"
     = Some (errorString "invalid URL escape")
  /\ get (builder := no_request) ok_list (Some "old") "ListServices" namespace
     = ((Some "old",
         Returned
           (Some
              (errors_Wrap (errorString "invalid URL escape")
                 "constructing request http://flux/v3/services?namespace=default"))),
        [EvMakeURL "http://flux" "ListServices" namespace;
         EvNewRequest "GET" "http://flux/v3/services?namespace=default" None]).
Proof.
  split; [reflexivity|]. split; [reflexivity|].
  exact (proj1 (request_construction_failure (builder := no_request)
                  ok_list (Some "old") "ListServices" (@None Value) namespace
                  "http://flux/v3/services?namespace=default"
                  (errorString "invalid URL escape") eq_refl) eq_refl).
Defined.

Lemma read_failure_after_200_witness :
  Do (httpClient cut_short) post_automate
  = inl {| StatusCode := 200; Status := "200 OK";
           Body := {| stream_data := "[{";
                      stream_err := Some (errorString "unexpected EOF") |} |}
  /\ In (EvDo post_automate)
        (trace (postWithResp cut_short (Some "old") "Automate" None service))
  /\ value (postWithResp cut_short (Some "old") "Automate" None service)
     = (Some "old",
        Returned
          (Some
             (errors_Wrap (errorString "unexpected EOF")
                "decoding response from server"))).
Proof.
  assert (Hin : In (EvDo post_automate)
                   (trace (postWithResp cut_short (Some "old") "Automate"
                             None service)))
    by (vm_compute; tauto).
  split; [reflexivity|]. split; [exact Hin|].
  exact (proj1 (read_failure_after_200 (Value := Value) (Dest := string)
                  cut_short post_automate _ (errorString "unexpected EOF")
                  eq_refl eq_refl eq_refl
                  (Some "old") "Automate" None service Hin)).
Defined.

Lemma destination_written_only_by_decoding_witness :
  never is_decoding (trace (get boom (Some "old") "ListServices" namespace))
  /\ fst (value (get boom (Some "old") "ListServices" namespace)) = Some "old".
Proof.
  assert (Hn : never is_decoding
                 (trace (get boom (Some "old") "ListServices" namespace)))
    by reflexivity.
  split; [exact Hn|].
  exact (proj1 (destination_written_only_by_decoding boom (Some "old")
                  "ListServices" (@None Value) namespace) Hn).
Defined.

Lemma errors_carry_phase_context_witness :
  snd (value (get boom (Some "old") "ListServices" namespace))
  = Returned
      (Some
         (errors_Wrap (APIError 500 "500 Internal Server Error" "boom")
            "executing HTTP request"))
  /\ exists cause msg,
       errors_Wrap (APIError 500 "500 Internal Server Error" "boom")
         "executing HTTP request"
       = errors_Wrap cause msg
       /\ phase_context msg.
Proof.
  split; [reflexivity|].
  exact (proj2 (proj1 (errors_carry_phase_context boom (Some "old")
                         "ListServices" (@None Value) namespace)) _ eq_refl).
Defined.

Lemma request_sent_is_the_resolved_url_witness :
  makeURL (endpoint ok_list) (router ok_list) "ListServices" namespace
  = inl "http://flux/v3/services?namespace=default"
  /\ In (EvDo get_services)
        (trace (get ok_list (Some "old") "ListServices" namespace))
  /\ get_services
     = Token_Set (token ok_list)
         {| Method := "GET"; URL := "http://flux/v3/services?namespace=default";
            Payload := None; Header := [] |}.
Proof.
  assert (Hin : In (EvDo get_services)
                   (trace (get ok_list (Some "old") "ListServices" namespace)))
    by (vm_compute; tauto).
  split; [reflexivity|]. split; [exact Hin|].
  exact (proj1 (request_sent_is_the_resolved_url ok_list (Some "old")
                  "ListServices" (@None Value) namespace
                  "http://flux/v3/services?namespace=default" get_services
                  eq_refl) Hin).
Defined.

Lemma body_closed_last_after_200_witness :
  Do (httpClient ok_list) get_services = inl (response 200 "200 OK" "[{}]")
  /\ In (EvDo get_services)
        (trace (get ok_list (Some "old") "ListServices" namespace))
  /\ exists before,
       trace (get ok_list (Some "old") "ListServices" namespace)
       = before ++ [EvClose (Body (response 200 "200 OK" "[{}]"))]
       /\ never is_Close before.
Proof.
  assert (Hin : In (EvDo get_services)
                   (trace (get ok_list (Some "old") "ListServices" namespace)))
    by (vm_compute; tauto).
  split; [reflexivity|]. split; [exact Hin|].
  exact (proj1 (body_closed_last_after_200 (Value := Value) (Dest := string)
                  ok_list get_services (response 200 "200 OK" "[{}]")
                  eq_refl eq_refl)
           (Some "old") "ListServices" namespace Hin).
Defined.

Lemma SetConfig_sends_the_marshalled_config_witness :
  makeURL (endpoint ok_list) (router ok_list) "SetConfig" []
  = inl "http://flux/v4/config"
  /\ In (EvMarshal (Text "cfg"))
        (trace (SetConfig (Dest := string) ok_list (Text "cfg"))).
Proof.
  split; [reflexivity|].
  exact (proj1 (SetConfig_sends_the_marshalled_config (Dest := string)
                  ok_list (Text "cfg") "http://flux/v4/config" eq_refl)).
Defined.

Lemma PostRelease_job_id_witness :
  Do (httpClient ok_empty) post_release = inl (response 200 "200 OK" "")
  /\ In (EvDo post_release)
        (trace (PostRelease "none" (fun d => d) ok_empty job))
  /\ value (PostRelease "none" (fun d => d) ok_empty job)
     = ("none", Returned None).
Proof.
  assert (Hin : In (EvDo post_release)
                   (trace (PostRelease "none" (fun d => d) ok_empty job)))
    by (vm_compute; tauto).
  split; [reflexivity|]. split; [exact Hin|].
  destruct (PostRelease_job_id "none" (fun d => d) ok_empty job)
    as (_ & _ & H).
  exact (proj1 (H post_release (response 200 "200 OK" "") Hin
                  eq_refl eq_refl eq_refl) eq_refl).
Defined.

Lemma APIError_body_is_trimmed_witness :
  Do (httpClient boom) get_services
  = inl (response 500 "500 Internal Server Error" " boom ")
  /\ exists text,
       snd (value (executeRequest (Value := Value) boom get_services))
       = Some (APIError 500 "500 Internal Server Error" text)
       /\ starts_with_space (Strings.to_bytes text) = false
       /\ ends_with_space (Strings.to_bytes text) = false.
Proof.
  split; [reflexivity|].
  destruct (APIError_body_is_trimmed (Value := Value) boom get_services
              (response 500 "500 Internal Server Error" " boom ")
              eq_refl ltac:(discriminate))
    as (text & Hv & _ & Hs & He & _).
  exists text. repeat split; assumption.
Defined.

Lemma service_actions_keep_the_action_contract_witness :
  In (EvDo post_automate)
     (trace (Automate (Value := Value) (Dest := string) ok_empty "default"))
  /\ Do (httpClient ok_empty) post_automate = inl (response 200 "200 OK" "")
  /\ empty_body (Body (response 200 "200 OK" ""))
  /\ value (Automate (Value := Value) (Dest := string) ok_empty "default")
     = Returned None.
Proof.
  assert (Hin : In (EvDo post_automate)
                   (trace (Automate (Value := Value) (Dest := string)
                             ok_empty "default")))
    by (vm_compute; tauto).
  assert (He : empty_body (Body (response 200 "200 OK" "")))
    by (split; reflexivity).
  split; [exact Hin|]. split; [reflexivity|]. split; [exact He|].
  destruct (proj1 (service_actions_keep_the_action_contract (Value := Value)
                     (Dest := string) ok_empty "default"))
    as (_ & _ & _ & H).
  exact (proj2 (H post_automate (response 200 "200 OK" "") Hin eq_refl)
           eq_refl He).
Defined.

Lemma queries_keep_the_query_contract_witness :
  In (EvDo get_services) (trace (ListServices "nil" ok_list "default"))
  /\ Do (httpClient ok_list) get_services = inl (response 200 "200 OK" "[{}]")
  /\ value (ListServices "nil" ok_list "default") = ("[{}]", Returned None).
Proof.
  assert (Hin : In (EvDo get_services)
                   (trace (ListServices "nil" ok_list "default")))
    by (vm_compute; tauto).
  split; [exact Hin|]. split; [reflexivity|].
  destruct (proj1 (queries_keep_the_query_contract (Value := Value)
                     "nil" "nil" "nil" "nil" "nil" "nil" ok_list "default"))
    as (_ & _ & _ & H).
  exact (H get_services (response 200 "200 OK" "[{}]") Hin eq_refl eq_refl).
Defined.
